(** * The Astro language server: request routing in [server.ts]

    A shallow embedding of [startLanguageServer]
    (packages/language-server/src/server.ts).  The function creates the
    document manager, the plugin host and the config manager, and then
    registers one callback per protocol message on the connection.  Each
    callback is embedded as a program in a small monad whose primitive
    steps are the calls the callback makes into its collaborators; the
    interpreter records these calls in order. *)

From Stdlib Require Import ZArith String List Lia.
From stdpp Require Import base option list gmap strings sorting.

(** ** JavaScript values

    [initializationOptions] and [settings] have type [any] in the
    protocol; the handlers read properties from them and test them for
    truthiness, so they are kept as untyped values. *)

#[warnings="-register-all"]
Inductive JsValue : Type :=
| JsUndefined
| JsNull
| JsBoolean (b : bool)
| JsNumber (n : Z)
| JsNaN
| JsString (s : string)
| JsObject (props : list (string * JsValue)).

Inductive JsError : Type :=
| TypeError (message : string).

(** The outcome of evaluating an expression or a handler: a value, or a
    thrown exception. *)
Inductive Result (A : Type) : Type :=
| Returned (a : A)
| Thrown (e : JsError).
Arguments Returned {A} a.
Arguments Thrown {A} e.

(** [!!v] *)
Definition truthy (v : JsValue) : bool :=
  match v with
  | JsUndefined | JsNull | JsNaN => false
  | JsBoolean b => b
  | JsNumber n => negb (n =? 0)%Z
  | JsString EmptyString => false
  | JsString _ => true
  | JsObject _ => true
  end.

Fixpoint lookupProp (name : string) (props : list (string * JsValue)) : JsValue :=
  match props with
  | [] => JsUndefined
  | (k, v) :: rest => if String.eqb k name then v else lookupProp name rest
  end.

(** [v.name]: reading a property of [undefined] or [null] throws a
    TypeError; primitives have no own properties of interest. *)
Definition getProp (v : JsValue) (name : string) : Result JsValue :=
  match v with
  | JsUndefined =>
      Thrown (TypeError ("Cannot read properties of undefined (reading '" +:+ name +:+ "')"))
  | JsNull =>
      Thrown (TypeError ("Cannot read properties of null (reading '" +:+ name +:+ "')"))
  | JsObject props => Returned (lookupProp name props)
  | _ => Returned JsUndefined
  end.

(** [v?.name] *)
Definition getPropOpt (v : JsValue) (name : string) : JsValue :=
  match v with
  | JsObject props => lookupProp name props
  | _ => JsUndefined
  end.

(** [v !== 'text'] *)
Definition strictNeqString (v : JsValue) (text : string) : bool :=
  match v with
  | JsString s => negb (String.eqb s text)
  | _ => true
  end.

(** [a || b] *)
Definition jsOr (a b : JsValue) : JsValue := if truthy a then a else b.

(** [!!o] for an optional boolean field *)
Definition truthyField (o : option bool) : bool :=
  match o with
  | Some b => b
  | None => false
  end.

(** ** Protocol data *)

Record Position := { line : nat; character : nat }.
Record Range := { range_start : Position; range_end : Position }.
Record TextDocumentIdentifier := { td_uri : string }.
Record TextDocumentItem :=
  { item_uri : string; languageId : string; item_version : Z; item_text : string }.
Record VersionedTextDocumentIdentifier := { vtd_uri : string; vtd_version : Z }.
Record TextDocumentContentChangeEvent :=
  { change_range : option Range; change_text : string }.

(** The request handlers receive a cancellation token from the
    connection as their second argument. *)
Inductive CancellationToken : Type :=
| Token (id : nat).

Record WorkspaceFolder := { folder_uri : string; folder_name : string }.
Record WorkspaceClientCapabilities := { configuration : option bool }.
Record DefinitionClientCapabilities := { linkSupport : option bool }.
Record TextDocumentClientCapabilities :=
  { definition : option DefinitionClientCapabilities }.
Record ClientCapabilities :=
  { workspace : option WorkspaceClientCapabilities;
    textDocument : option TextDocumentClientCapabilities }.

Record InitializeParams :=
  { workspaceFolders : option (list WorkspaceFolder);
    rootUri : option string;
    capabilities : ClientCapabilities;
    initializationOptions : JsValue }.

Record DidChangeConfigurationParams := { settings : JsValue }.

Inductive FileChangeType : Type := Created | Changed | Deleted.
Record FileEvent := { fe_uri : string; fe_type : FileChangeType }.
Record DidChangeWatchedFilesParams := { changes : list FileEvent }.

(** The element type of the array given to [pluginHost.onWatchFileChanges]. *)
Record WatchFileChange := { fileName : option string; changeType : FileChangeType }.

Record CompletionItem := { label : string; data : JsValue }.

Record RenameFile := { oldUri : string; newUri : string }.

Record NonAstroFileChange :=
  { nonAstro_uri : string; nonAstro_changes : list TextDocumentContentChangeEvent }.

Inductive MessageType : Type := MessageError | MessageWarning | MessageInfo | MessageLog.
Record ShowMessageParams := { message : string; messageType : MessageType }.

(** ** Collaborators *)

Record AstroDocument := { uri : string; documentText : string }.

Record AstroVersion :=
  { full : string; major : Z; minor : Z; patch : Z; exist : bool }.

Record PluginHostConfig :=
  { filterIncompleteCompletions : bool; definitionLinkSupport : bool }.

(** [new HTMLPlugin(configManager)], [new CSSPlugin(configManager)],
    [new AstroPlugin(documentManager, configManager, workspaceUris)],
    [new TypeScriptPlugin(documentManager, configManager, workspaceUris)];
    the managers are the ones created at the top of [startLanguageServer]. *)
Inductive Plugin : Type :=
| HTMLPlugin
| CSSPlugin
| AstroPlugin (workspaceUris : list string)
| TypeScriptPlugin (workspaceUris : list string).

Record SemanticTokensLegend := { tokenTypes : list string; tokenModifiers : list string }.

(** What a feature provider query answers; opaque to the server, which
    hands it back to the connection. *)
Inductive Response : Type :=
| NoResponse
| Payload (json : string).

(** The calls [server.ts] makes.  A constructor has the arguments that
    the call site passes, no more: [pluginHost.doHover] is called with a
    document and a position, [pluginHost.getCodeActions] with a document,
    a range, a context and a cancellation token. *)
Inductive Call : Type :=
(* ./utils, ./plugins/typescript/utils *)
| urlToPath (url : string)
| getUserAstroVersion (basePath : option string)
| getSemanticTokenLegend
(* connection *)
| connection_sendNotification (params : ShowMessageParams)
| connection_console_log (text : string)
| connection_client_register
(* pluginHost *)
| pluginHost_initialize (config : PluginHostConfig)
| pluginHost_registerPlugin (plugin : Plugin)
| pluginHost_onWatchFileChanges (params : list WatchFileChange)
| pluginHost_updateNonAstroFile (path : string) (edits : list TextDocumentContentChangeEvent)
| pluginHost_doHover (td : TextDocumentIdentifier) (position : Position)
| pluginHost_getDefinitions (td : TextDocumentIdentifier) (position : Position)
| pluginHost_getFoldingRanges (td : TextDocumentIdentifier)
| pluginHost_getCodeActions (td : TextDocumentIdentifier) (range : Range)
    (context : string) (cancellationToken : CancellationToken)
| pluginHost_getCompletions (td : TextDocumentIdentifier) (position : Position)
    (context : option string)
| pluginHost_resolveCompletion (origin : JsValue) (completionItem : CompletionItem)
| pluginHost_getDocumentSymbols (td : TextDocumentIdentifier)
    (cancellationToken : CancellationToken)
| pluginHost_getSemanticTokens (td : TextDocumentIdentifier) (range : option Range)
    (cancellationToken : CancellationToken)
| pluginHost_getLinkedEditingRanges (td : TextDocumentIdentifier) (position : Position)
| pluginHost_formatDocument (td : TextDocumentIdentifier) (options : string)
| pluginHost_getDocumentColors (td : TextDocumentIdentifier)
| pluginHost_getColorPresentations (td : TextDocumentIdentifier) (range : Range)
    (color : string)
| pluginHost_getInlayHints (td : TextDocumentIdentifier) (range : Range)
    (cancellationToken : CancellationToken)
| pluginHost_doTagComplete (td : TextDocumentIdentifier) (position : Position)
| pluginHost_getSignatureHelp (td : TextDocumentIdentifier) (position : Position)
    (context : option string) (cancellationToken : CancellationToken)
| pluginHost_rename (td : TextDocumentIdentifier) (position : Position) (newName : string)
| pluginHost_updateImports (fileRename : RenameFile)
(* configManager *)
| configManager_updateConfig
| configManager_getConfig (section : string) (scopeUri : string)
| configManager_updateGlobalConfig (config : JsValue)
| configManager_removeDocument (scopeUri : string)
(* documentManager *)
| documentManager_openDocument (item : TextDocumentItem)
| documentManager_markAsOpenedInClient (docUri : string)
| documentManager_closeDocument (docUri : string)
| documentManager_updateDocument (td : VersionedTextDocumentIdentifier)
    (contentChanges : list TextDocumentContentChangeEvent)
| documentManager_getAllOpenedByClient
(* diagnosticsManager *)
| diagnosticsManager_updateAll
| diagnosticsManager_update (document : AstroDocument)
| diagnosticsManager_removeDiagnostics (document : AstroDocument)
(* the two functions returned by debounceThrottle(..., 1000) *)
| updateAllDiagnostics
| debounced_documentChange (document : AstroDocument).

(** What each call hands back to [server.ts]. *)
Definition reply (c : Call) : Type :=
  match c with
  | urlToPath _ => option string
  | getUserAstroVersion _ => AstroVersion
  | getSemanticTokenLegend => SemanticTokensLegend
  | documentManager_getAllOpenedByClient => list (string * AstroDocument)
  | configManager_getConfig _ _ => JsValue
  | pluginHost_resolveCompletion _ _ => CompletionItem
  | pluginHost_doHover _ _
  | pluginHost_getDefinitions _ _
  | pluginHost_getFoldingRanges _
  | pluginHost_getCodeActions _ _ _ _
  | pluginHost_getCompletions _ _ _
  | pluginHost_getDocumentSymbols _ _
  | pluginHost_getSemanticTokens _ _ _
  | pluginHost_getLinkedEditingRanges _ _
  | pluginHost_formatDocument _ _
  | pluginHost_getDocumentColors _
  | pluginHost_getColorPresentations _ _ _
  | pluginHost_getInlayHints _ _ _
  | pluginHost_doTagComplete _ _
  | pluginHost_getSignatureHelp _ _ _ _
  | pluginHost_rename _ _ _
  | pluginHost_updateImports _ => Response
  | _ => unit
  end.

(** ** The handler monad

    A handler is a finite tree of calls.  [ReadCapability] and
    [WriteCapability] access the one mutable variable of
    [startLanguageServer], [let hasConfigurationCapability]. *)
Inductive Prog (A : Type) : Type :=
| Ret (a : A)
| Throw (e : JsError)
| Do (c : Call) (k : reply c -> Prog A)
| ReadCapability (k : bool -> Prog A)
| WriteCapability (b : bool) (k : Prog A).
Arguments Ret {A} a.
Arguments Throw {A} e.
Arguments Do {A} c k.
Arguments ReadCapability {A} k.
Arguments WriteCapability {A} b k.

Fixpoint bind {A B : Type} (p : Prog A) (f : A -> Prog B) : Prog B :=
  match p with
  | Ret a => f a
  | Throw e => Throw e
  | Do c k => Do c (fun r => bind (k r) f)
  | ReadCapability k => ReadCapability (fun b => bind (k b) f)
  | WriteCapability b k => WriteCapability b (bind k f)
  end.

#[global] Instance Prog_ret : MRet Prog := @Ret.
#[global] Instance Prog_bind : MBind Prog := fun A B f p => bind p f.
#[global] Instance Prog_fmap : FMap Prog := fun A B f p => bind p (fun a => Ret (f a)).

Definition call (c : Call) : Prog (reply c) := Do c Ret.
Definition readCapability : Prog bool := ReadCapability Ret.
Definition writeCapability (b : bool) : Prog unit := WriteCapability b (Ret tt).

(** An expression of [server.ts] that may throw. *)
Definition eval {A : Type} (r : Result A) : Prog A :=
  match r with
  | Returned a => Ret a
  | Thrown e => Throw e
  end.

(** [xs.forEach(f)] *)
Fixpoint forEach {A : Type} (xs : list A) (f : A -> Prog unit) : Prog unit :=
  match xs with
  | [] => Ret tt
  | x :: rest => f x;; forEach rest f
  end.

(** [xs.map(f)] for a callback that makes calls *)
Fixpoint mapM {A B : Type} (f : A -> Prog B) (xs : list A) : Prog (list B) :=
  match xs with
  | [] => Ret []
  | x :: rest => y ← f x; ys ← mapM f rest; Ret (y :: ys)
  end.

(** *** Running a handler

    The server's own state is the capability flag.  The collaborators
    answer through an oracle: whatever they return, the handler goes on
    with it.  The trace lists the calls in the order they were made. *)
Record ServerState := { hasConfigurationCapability : bool }.

Definition Oracle : Type := forall c : Call, reply c.

Record Outcome (A : Type) : Type :=
  { final : ServerState; trace : list Call; result : Result A }.
Arguments final {A} o.
Arguments trace {A} o.
Arguments result {A} o.

Fixpoint exec {A : Type} (o : Oracle) (p : Prog A) (s : ServerState) : Outcome A :=
  match p with
  | Ret a => {| final := s; trace := []; result := Returned a |}
  | Throw e => {| final := s; trace := []; result := Thrown e |}
  | Do c k =>
      let r := exec o (k (o c)) s in
      {| final := final r; trace := c :: trace r; result := result r |}
  | ReadCapability k => exec o (k (hasConfigurationCapability s)) s
  | WriteCapability b k => exec o k {| hasConfigurationCapability := b |}
  end.

(** Every call the program can make, on whatever path and whatever the
    collaborators answer, satisfies [P]. *)
Fixpoint everyCall {A : Type} (P : Call -> Prop) (p : Prog A) : Prop :=
  match p with
  | Ret _ | Throw _ => True
  | Do c k => P c /\ forall r, everyCall P (k r)
  | ReadCapability k => forall b, everyCall P (k b)
  | WriteCapability _ k => everyCall P k
  end.

(** ** Constants of the protocol library and imported constants *)

Definition dquote : string := String (Ascii.ascii_of_nat 34) EmptyString.

(** [CodeActionKind.QuickFix], [CodeActionKind.SourceOrganizeImports] *)
Definition CodeActionKind_QuickFix : string := "quickfix".
Definition CodeActionKind_SourceOrganizeImports : string := "source.organizeImports".

Inductive TextDocumentSyncKind : Type := SyncNone | SyncFull | SyncIncremental.

Record TextDocumentSyncOptions :=
  { openClose : bool; change : TextDocumentSyncKind; save_includeText : bool }.
Record CompletionOptions :=
  { resolveProvider : bool; completion_triggerCharacters : list string }.
Record SemanticTokensOptions :=
  { legend : SemanticTokensLegend; tokens_range : bool; tokens_full : bool }.
Record SignatureHelpOptions :=
  { triggerCharacters : list string; retriggerCharacters : list string }.

Record ServerCapabilities :=
  { textDocumentSync : TextDocumentSyncOptions;
    foldingRangeProvider : bool;
    definitionProvider : bool;
    renameProvider : bool;
    documentFormattingProvider : bool;
    codeActionKinds : list string;
    completionProvider : CompletionOptions;
    colorProvider : bool;
    hoverProvider : bool;
    documentSymbolProvider : bool;
    linkedEditingRangeProvider : bool;
    semanticTokensProvider : SemanticTokensOptions;
    inlayHintProvider : bool;
    signatureHelpProvider : SignatureHelpOptions }.

Record InitializeResult := { server_capabilities : ServerCapabilities }.

(** ** Messages delivered to the server *)

Inductive Request : Type :=
| HoverRequest (textDocument : TextDocumentIdentifier) (position : Position)
| DefinitionRequest (textDocument : TextDocumentIdentifier) (position : Position)
| FoldingRangeRequest (textDocument : TextDocumentIdentifier)
| CodeActionRequest (textDocument : TextDocumentIdentifier) (range : Range) (context : string)
| CompletionRequest (textDocument : TextDocumentIdentifier) (position : Position)
    (context : option string)
| CompletionResolveRequest (completionItem : CompletionItem)
| DocumentSymbolRequest (textDocument : TextDocumentIdentifier)
| SemanticTokensRequest (textDocument : TextDocumentIdentifier)
| SemanticTokensRangeRequest (textDocument : TextDocumentIdentifier) (range : Range)
| LinkedEditingRangeRequest (textDocument : TextDocumentIdentifier) (position : Position)
| DocumentFormattingRequest (textDocument : TextDocumentIdentifier) (options : string)
| DocumentColorRequest (textDocument : TextDocumentIdentifier)
| ColorPresentationRequest (textDocument : TextDocumentIdentifier) (range : Range)
    (color : string)
| InlayHintRequest (textDocument : TextDocumentIdentifier) (range : Range)
| TagCloseRequest (textDocument : TextDocumentIdentifier) (position : Position)
| SignatureHelpRequest (textDocument : TextDocumentIdentifier) (position : Position)
    (context : option string)
| RenameRequest (textDocument : TextDocumentIdentifier) (position : Position)
    (newName : string)
| GetEditsForFileRenameRequest (fileRename : RenameFile).

(** Everything that makes a registered callback run: the messages of the
    connection, and the two events of the document manager's emitter. *)
Inductive Event : Type :=
| Initialize (params : InitializeParams)
| Initialized
| DidChangeConfiguration (change : DidChangeConfigurationParams)
| DidOpenTextDocument (item : TextDocumentItem)
| DidCloseTextDocument (textDocument : TextDocumentIdentifier)
| DidChangeTextDocument (textDocument : VersionedTextDocumentIdentifier)
    (contentChanges : list TextDocumentContentChangeEvent)
| DidChangeWatchedFiles (evt : DidChangeWatchedFilesParams)
| DidSaveTextDocument (textDocument : TextDocumentIdentifier) (text : option string)
| DidChangeNonAstroFile (e : NonAstroFileChange)
| Incoming (request : Request) (cancellationToken : CancellationToken)
| documentChange (document : AstroDocument)
| documentClose (document : AstroDocument).

Inductive HandlerResult : Type :=
| Done
| InitializeDone (r : InitializeResult)
| Answer (r : Response)
| Item (completionItem : CompletionItem).

(** ** The debounced functions

    [debounceThrottle] is imported from ./utils, which is not among the
    sources at hand; [server.ts] gives it a callback and the interval
    1000 and registers the function it returns as a handler. *)

Module DebounceThrottle.
Section Scheduler.
Context {K : Type} `{Countable K} {A : Type}.

(** The interval given to [debounceThrottle], in milliseconds. *)
Variable interval : nat.

(** Modelled from the spec: the pending recompute of one key in the
    function that [debounceThrottle] returns (./utils is missing).
    Repeated triggers while a recompute is scheduled collapse into the
    one pending recompute, which keeps the time of the first trigger and
    takes the argument of the last. *)
Record Pending : Type :=
  { firstTrigger : nat; lastTrigger : nat; argument : A }.

(** Modelled from the spec: the state of the function that
    [debounceThrottle] returns (./utils is missing), a state machine
    with a timer per key (a document).  A key without an entry is idle,
    a key with an entry is scheduled.  The wrapped callback is started
    when the timer fires and the key is idle again at once, so the
    states computing and published of the spec are not told apart from
    idle. *)
Record State : Type :=
  { now : nat; scheduled : gmap K Pending }.

(** No timer is running; the clock starts at 0 ms. *)
Definition idle : State := {| now := 0; scheduled := ∅ |}.

(** Modelled from the spec: when the timer of a pending recompute fires
    (./utils is missing).  Debounce waits for a quiet period of one
    interval after the last trigger; throttle guarantees a recompute
    within one interval of the first trigger that is still waiting;
    both are bounded by the same interval. *)
Definition deadline (p : Pending) : nat :=
  Nat.min (lastTrigger p + interval) (firstTrigger p + interval).

(** Modelled from the spec: a call of the function that
    [debounceThrottle] returns (./utils is missing), for key [k] with
    argument [a]. *)
Definition trigger (k : K) (a : A) (s : State) : State :=
  let p :=
    match scheduled s !! k with
    | Some p => {| firstTrigger := firstTrigger p; lastTrigger := now s; argument := a |}
    | None => {| firstTrigger := now s; lastTrigger := now s; argument := a |}
    end in
  {| now := now s; scheduled := <[k := p]> (scheduled s) |}.

(** Modelled from the spec: the timers of [debounceThrottle] (./utils
    is missing) while [dt] milliseconds pass.  Every timer whose
    deadline is reached fires: its key goes back to idle, and the
    wrapped callback runs on the pending argument.  The second
    component maps each key that fired to the time and the argument of
    its recompute. *)
Definition elapse (dt : nat) (s : State) : State * gmap K (nat * A) :=
  let t := now s + dt in
  ({| now := t;
      scheduled := filter (λ kp, t < deadline kp.2) (scheduled s) |},
   (λ p, (deadline p, argument p))
     <$> filter (λ kp, deadline kp.2 ≤ t) (scheduled s)).

(** What a debounced function sees: time passing, and calls. *)
Inductive Input : Type :=
| Elapse (dt : nat)
| Trigger (k : K) (a : A).

(** The recomputes of a run, one table per [Elapse]. *)
Fixpoint run (inputs : list Input) (s : State) : list (gmap K (nat * A)) :=
  match inputs with
  | [] => []
  | Elapse dt :: rest => let '(s', fired) := elapse dt s in fired :: run rest s'
  | Trigger k a :: rest => run rest (trigger k a s)
  end.

(** The recomputes of key [k], in order: time and argument. *)
Definition recomputesOf (k : K) (log : list (gmap K (nat * A))) : list (nat * A) :=
  omap (λ fired, fired !! k) log.




(** The state of the timers after the inputs. *)
Fixpoint advance (inputs : list Input) (s : State) : State :=
  match inputs with
  | [] => s
  | Elapse dt :: rest => advance rest (elapse dt s).1
  | Trigger k a :: rest => advance rest (trigger k a s)
  end.

End Scheduler.
End DebounceThrottle.

(** Collaborators that answer nothing: no path, no Astro installation,
    no open document, no result. *)
Definition quietOracle : Oracle := fun c =>
  match c return reply c with
  | urlToPath _ => None
  | getUserAstroVersion _ =>
      {| full := EmptyString; major := 0; minor := 0; patch := 0; exist := false |}
  | getSemanticTokenLegend => {| tokenTypes := []; tokenModifiers := [] |}
  | documentManager_getAllOpenedByClient => []
  | configManager_getConfig _ _ => JsUndefined
  | pluginHost_resolveCompletion _ completionItem => completionItem
  | pluginHost_doHover _ _
  | pluginHost_getDefinitions _ _
  | pluginHost_getFoldingRanges _
  | pluginHost_getCodeActions _ _ _ _
  | pluginHost_getCompletions _ _ _
  | pluginHost_getDocumentSymbols _ _
  | pluginHost_getSemanticTokens _ _ _
  | pluginHost_getLinkedEditingRanges _ _
  | pluginHost_formatDocument _ _
  | pluginHost_getDocumentColors _
  | pluginHost_getColorPresentations _ _ _
  | pluginHost_getInlayHints _ _ _
  | pluginHost_doTagComplete _ _
  | pluginHost_getSignatureHelp _ _ _ _
  | pluginHost_rename _ _ _
  | pluginHost_updateImports _ => NoResponse
  | _ => tt
  end.

(** The same collaborators, with the given documents open in the client. *)
Definition withOpened (opened : list (string * AstroDocument)) (o : Oracle) : Oracle :=
  fun c =>
  match c return reply c -> reply c with
  | documentManager_getAllOpenedByClient => fun _ => opened
  | _ => fun r => r
  end (o c).

(** ** The callbacks registered by [startLanguageServer] *)

Section Server.

(** Imported constants whose modules are not part of the file at hand:
    [defaultLSConfig] from ./core/config/ConfigManager and
    [sortImportKind] from ./plugins/typescript/features/CodeActionsProvider. *)
Variable defaultLSConfig : JsValue.
Variable sortImportKind : string.

(** [params.workspaceFolders?.map((folder) => folder.uri.toString())
     ?? [params.rootUri ?? '']] *)
Definition workspaceUrisOf (params : InitializeParams) : list string :=
  match workspaceFolders params with
  | Some folders => map folder_uri folders
  | None => [default EmptyString (rootUri params)]
  end.

(** The body of [workspaceUris.forEach((uri) => ...)], lines 47 to 65.
    The template literal prints an undefined path as "undefined". *)
Definition checkAstroVersion (workspaceUri : string) : Prog unit :=
  path ← call (urlToPath workspaceUri);
  astroVersion ← call (getUserAstroVersion path);
  (if negb (exist astroVersion)
   then call (connection_sendNotification
          {| message :=
               "Couldn't find Astro in workspace " +:+ dquote
               +:+ default "undefined" path +:+ dquote
               +:+ ". Experience might be degraded. For the best experience, "
               +:+ "please make sure Astro is installed and then restart the "
               +:+ "language server";
             messageType := MessageWarning |})
   else Ret tt);;
  (if exist astroVersion && (major astroVersion =? 0)%Z
      && (minor astroVersion <? 24)%Z && (patch astroVersion <? 5)%Z
   then call (connection_sendNotification
          {| message :=
               "The version of Astro you're using (" +:+ full astroVersion
               +:+ ") is not supported by this version of the Astro language "
               +:+ "server. Please upgrade Astro to any version higher than "
               +:+ "0.23.4 or if using the VS Code extension, downgrade the "
               +:+ "extension to 0.8.10";
             messageType := MessageError |})
   else Ret tt).

(** [!!(params.capabilities.workspace && !!params.capabilities.workspace.configuration)] *)
Definition configurationCapabilityOf (params : InitializeParams) : bool :=
  match workspace (capabilities params) with
  | Some w => truthyField (configuration w)
  | None => false
  end.

(** The argument of [pluginHost.initialize], lines 69 to 72. *)
Definition pluginHostConfigOf (params : InitializeParams) : PluginHostConfig :=
  {| filterIncompleteCompletions :=
       negb (truthy (getPropOpt (initializationOptions params)
                       "dontFilterIncompleteCompletions"));
     definitionLinkSupport :=
       match textDocument (capabilities params) with
       | Some t =>
           match definition t with
           | Some d => truthyField (linkSupport d)
           | None => false
           end
       | None => false
       end |}.

(** The object literal returned by the initialize handler, lines 84 to 151. *)
Definition serverCapabilities (tokenLegend : SemanticTokensLegend) : ServerCapabilities :=
  {| textDocumentSync :=
       {| openClose := true; change := SyncIncremental; save_includeText := true |};
     foldingRangeProvider := true;
     definitionProvider := true;
     renameProvider := true;
     documentFormattingProvider := true;
     codeActionKinds :=
       [CodeActionKind_QuickFix; CodeActionKind_SourceOrganizeImports; sortImportKind];
     completionProvider :=
       {| resolveProvider := true;
          completion_triggerCharacters :=
            ["."; dquote; "'"; "`"; "/"; "@"; "<"; " ";
             ">"; "*"; "#"; "$"; "+"; "^"; "("; "["; "@"; "-";
             ":"] |};
     colorProvider := true;
     hoverProvider := true;
     documentSymbolProvider := true;
     linkedEditingRangeProvider := true;
     semanticTokensProvider :=
       {| legend := tokenLegend; tokens_range := true; tokens_full := true |};
     inlayHintProvider := true;
     signatureHelpProvider :=
       {| triggerCharacters := ["("; ","; "<"]; retriggerCharacters := [")"] |} |}.

(** [connection.onInitialize], lines 44 to 152.  The read of
    [params.initializationOptions.environment] on line 79 has no [?.],
    unlike the read on line 70, and throws when the options are
    undefined or null. *)
Definition onInitialize (params : InitializeParams) : Prog InitializeResult :=
  let workspaceUris := workspaceUrisOf params in
  forEach workspaceUris checkAstroVersion;;
  writeCapability (configurationCapabilityOf params);;
  call (pluginHost_initialize (pluginHostConfigOf params));;
  call (pluginHost_registerPlugin HTMLPlugin);;
  call (pluginHost_registerPlugin CSSPlugin);;
  environment ← eval (getProp (initializationOptions params) "environment");
  (if strictNeqString environment "browser"
   then call (pluginHost_registerPlugin (AstroPlugin workspaceUris));;
        call (pluginHost_registerPlugin (TypeScriptPlugin workspaceUris))
   else Ret tt);;
  tokenLegend ← call getSemanticTokenLegend;
  Ret {| server_capabilities := serverCapabilities tokenLegend |}.

(** [connection.onDidChangeConfiguration], lines 156 to 166. *)
Definition onDidChangeConfiguration (change : DidChangeConfigurationParams) : Prog unit :=
  dynamic ← readCapability;
  if dynamic : bool
  then
    call configManager_updateConfig;;
    opened ← call documentManager_getAllOpenedByClient;
    forEach opened (fun document =>
      call (configManager_getConfig "astro" (uri (snd document)));; Ret tt)
  else
    astro ← eval (getProp (settings change) "astro");
    call (configManager_updateGlobalConfig (jsOr astro defaultLSConfig)).

(** Lines 169 to 178. *)
Definition onDidOpenTextDocument (item : TextDocumentItem) : Prog unit :=
  call (documentManager_openDocument item);;
  call (documentManager_markAsOpenedInClient (item_uri item)).

Definition onDidCloseTextDocument (td : TextDocumentIdentifier) : Prog unit :=
  call (documentManager_closeDocument (td_uri td)).

Definition onDidChangeTextDocument (td : VersionedTextDocumentIdentifier)
    (contentChanges : list TextDocumentContentChangeEvent) : Prog unit :=
  call (documentManager_updateDocument td contentChanges).

(** [!!change.fileName] *)
Definition hasFileName (c : WatchFileChange) : bool :=
  match fileName c with
  | Some EmptyString => false
  | Some _ => true
  | None => false
  end.

(** [connection.onDidChangeWatchedFiles], lines 188 to 198. *)
Definition onDidChangeWatchedFiles (evt : DidChangeWatchedFilesParams) : Prog unit :=
  mapped ← mapM (fun c =>
              path ← call (urlToPath (fe_uri c));
              Ret {| fileName := path; changeType := fe_type c |}) (changes evt);
  let params := List.filter hasFileName mapped in
  call (pluginHost_onWatchFileChanges params);;
  call updateAllDiagnostics.

(** The feature handlers, lines 201 to 258.  A handler that declares a
    second parameter receives the cancellation token there. *)
Definition onHover (td : TextDocumentIdentifier) (position : Position) : Prog Response :=
  call (pluginHost_doHover td position).

Definition onDefinition (td : TextDocumentIdentifier) (position : Position) : Prog Response :=
  call (pluginHost_getDefinitions td position).

Definition onFoldingRanges (td : TextDocumentIdentifier) : Prog Response :=
  call (pluginHost_getFoldingRanges td).

Definition onCodeAction (td : TextDocumentIdentifier) (range : Range) (context : string)
    (cancellationToken : CancellationToken) : Prog Response :=
  call (pluginHost_getCodeActions td range context cancellationToken).

Definition onCompletion (td : TextDocumentIdentifier) (position : Position)
    (context : option string) : Prog Response :=
  call (pluginHost_getCompletions td position context).

(** [connection.onCompletionResolve], lines 216 to 223. *)
Definition onCompletionResolve (completionItem : CompletionItem) : Prog CompletionItem :=
  let origin := data completionItem in
  if negb (truthy origin)
  then Ret completionItem
  else call (pluginHost_resolveCompletion origin completionItem).

Definition onDocumentSymbol (td : TextDocumentIdentifier)
    (cancellationToken : CancellationToken) : Prog Response :=
  call (pluginHost_getDocumentSymbols td cancellationToken).

Definition onSemanticTokens (td : TextDocumentIdentifier)
    (cancellationToken : CancellationToken) : Prog Response :=
  call (pluginHost_getSemanticTokens td None cancellationToken).

Definition onSemanticTokensRange (td : TextDocumentIdentifier) (range : Range)
    (cancellationToken : CancellationToken) : Prog Response :=
  call (pluginHost_getSemanticTokens td (Some range) cancellationToken).

Definition onLinkedEditingRange (td : TextDocumentIdentifier) (position : Position)
    : Prog Response :=
  call (pluginHost_getLinkedEditingRanges td position).

Definition onDocumentFormatting (td : TextDocumentIdentifier) (options : string)
    : Prog Response :=
  call (pluginHost_formatDocument td options).

Definition onDocumentColor (td : TextDocumentIdentifier) : Prog Response :=
  call (pluginHost_getDocumentColors td).

Definition onColorPresentation (td : TextDocumentIdentifier) (range : Range)
    (color : string) : Prog Response :=
  call (pluginHost_getColorPresentations td range color).

Definition onInlayHint (td : TextDocumentIdentifier) (range : Range)
    (cancellationToken : CancellationToken) : Prog Response :=
  call (pluginHost_getInlayHints td range cancellationToken).

Definition onTagClose (td : TextDocumentIdentifier) (position : Position) : Prog Response :=
  call (pluginHost_doTagComplete td position).

Definition onSignatureHelp (td : TextDocumentIdentifier) (position : Position)
    (context : option string) (cancellationToken : CancellationToken) : Prog Response :=
  call (pluginHost_getSignatureHelp td position context cancellationToken).

Definition onRenameRequest (td : TextDocumentIdentifier) (position : Position)
    (newName : string) : Prog Response :=
  call (pluginHost_rename td position newName).

(** [connection.onDidSaveTextDocument(updateAllDiagnostics)], line 260:
    the debounced function is the handler; the wrapped callback takes no
    argument. *)
Definition onDidSaveTextDocument : Prog unit :=
  call updateAllDiagnostics.

(** [connection.onNotification('$/onDidChangeNonAstroFile', ...)],
    lines 261 to 267. *)
Definition onDidChangeNonAstroFile (e : NonAstroFileChange) : Prog unit :=
  path ← call (urlToPath (nonAstro_uri e));
  (match path with
   | Some (String _ _ as p) => call (pluginHost_updateNonAstroFile p (nonAstro_changes e))
   | _ => Ret tt
   end);;
  call updateAllDiagnostics.

(** [documentManager.on('documentChange', debounceThrottle(..., 1000))],
    lines 269 to 272: the listener is the debounced function. *)
Definition onDocumentChange (document : AstroDocument) : Prog unit :=
  call (debounced_documentChange document).

(** [documentManager.on('documentClose', ...)], lines 274 to 277. *)
Definition onDocumentClose (document : AstroDocument) : Prog unit :=
  call (diagnosticsManager_removeDiagnostics document);;
  call (configManager_removeDocument (uri document)).

(** [connection.onRequest('$/getEditsForFileRename', ...)], lines 281 to 283. *)
Definition onGetEditsForFileRename (fileRename : RenameFile) : Prog Response :=
  call (pluginHost_updateImports fileRename).

(** [connection.onInitialized], lines 286 to 293. *)
Definition onInitialized : Prog unit :=
  call (connection_console_log "Successfully initialized! 🚀");;
  registered ← readCapability;
  if registered : bool then call connection_client_register else Ret tt.

(** The callbacks wrapped by [debounceThrottle] on lines 186 and 271;
    they run when the timer of the wrapper fires. *)
Definition updateAllDiagnostics_callback : Prog unit :=
  call diagnosticsManager_updateAll.

Definition documentChange_callback (document : AstroDocument) : Prog unit :=
  call (diagnosticsManager_update document).

(** The interval given to both [debounceThrottle] calls. *)
Definition debounceInterval : nat := 1000.

(** The connection calls a request handler with the parameters and the
    cancellation token of the request. *)
Definition handleRequest (r : Request) (cancellationToken : CancellationToken)
    : Prog HandlerResult :=
  match r with
  | HoverRequest td position => Answer <$> onHover td position
  | DefinitionRequest td position => Answer <$> onDefinition td position
  | FoldingRangeRequest td => Answer <$> onFoldingRanges td
  | CodeActionRequest td range context =>
      Answer <$> onCodeAction td range context cancellationToken
  | CompletionRequest td position context => Answer <$> onCompletion td position context
  | CompletionResolveRequest completionItem => Item <$> onCompletionResolve completionItem
  | DocumentSymbolRequest td => Answer <$> onDocumentSymbol td cancellationToken
  | SemanticTokensRequest td => Answer <$> onSemanticTokens td cancellationToken
  | SemanticTokensRangeRequest td range =>
      Answer <$> onSemanticTokensRange td range cancellationToken
  | LinkedEditingRangeRequest td position => Answer <$> onLinkedEditingRange td position
  | DocumentFormattingRequest td options => Answer <$> onDocumentFormatting td options
  | DocumentColorRequest td => Answer <$> onDocumentColor td
  | ColorPresentationRequest td range color =>
      Answer <$> onColorPresentation td range color
  | InlayHintRequest td range => Answer <$> onInlayHint td range cancellationToken
  | TagCloseRequest td position => Answer <$> onTagClose td position
  | SignatureHelpRequest td position context =>
      Answer <$> onSignatureHelp td position context cancellationToken
  | RenameRequest td position newName => Answer <$> onRenameRequest td position newName
  | GetEditsForFileRenameRequest fileRename => Answer <$> onGetEditsForFileRename fileRename
  end.

Definition unit_done (p : Prog unit) : Prog HandlerResult := p;; Ret Done.

Definition handle (e : Event) : Prog HandlerResult :=
  match e with
  | Initialize params => InitializeDone <$> onInitialize params
  | Initialized => unit_done onInitialized
  | DidChangeConfiguration change => unit_done (onDidChangeConfiguration change)
  | DidOpenTextDocument item => unit_done (onDidOpenTextDocument item)
  | DidCloseTextDocument td => unit_done (onDidCloseTextDocument td)
  | DidChangeTextDocument td contentChanges =>
      unit_done (onDidChangeTextDocument td contentChanges)
  | DidChangeWatchedFiles evt => unit_done (onDidChangeWatchedFiles evt)
  | DidSaveTextDocument _ _ => unit_done onDidSaveTextDocument
  | DidChangeNonAstroFile e => unit_done (onDidChangeNonAstroFile e)
  | Incoming r cancellationToken => handleRequest r cancellationToken
  | documentChange document => unit_done (onDocumentChange document)
  | documentClose document => unit_done (onDocumentClose document)
  end.

(** *** Runs of the server *)

(** One callback runs to completion. *)
Definition step (o : Oracle) (e : Event) (s : ServerState) : Outcome HandlerResult :=
  exec o (handle e) s.

(** [let hasConfigurationCapability = false], line 42. *)
Definition initialState : ServerState := {| hasConfigurationCapability := false |}.

(** What happens to the server over time: a message or emitter event is
    delivered (the oracle says what the collaborators answer while its
    callback runs), or time passes. *)
Inductive Delivery : Type :=
| Wait (dt : nat)
| Deliver (o : Oracle) (e : Event).

(** All calls made during a run, in order. *)
Fixpoint serve (inputs : list Delivery) (s : ServerState) : list Call :=
  match inputs with
  | [] => []
  | Wait _ :: rest => serve rest s
  | Deliver o e :: rest =>
      let r := step o e s in
      trace r ++ serve rest (final r)
  end.

(** The state of the server after a run. *)
Fixpoint stateAfter (inputs : list Delivery) (s : ServerState) : ServerState :=
  match inputs with
  | [] => s
  | Wait _ :: rest => stateAfter rest s
  | Deliver o e :: rest => stateAfter rest (final (step o e s))
  end.

(** The [Initialize] messages of a run. *)
Definition initializeParamsOf (d : Delivery) : option InitializeParams :=
  match d with
  | Deliver _ (Initialize params) => Some params
  | _ => None
  end.

(** Whether line 79 reads an environment other than 'browser'. *)
Definition outsideBrowser (params : InitializeParams) : bool :=
  match getProp (initializationOptions params) "environment" with
  | Returned environment => strictNeqString environment "browser"
  | Thrown _ => false
  end.

(** The plugins the initialize handler registers, in order (lines 75
    to 82). *)
Definition registeredBy (params : InitializeParams) : list Plugin :=
  HTMLPlugin :: CSSPlugin ::
  (if outsideBrowser params
   then [AstroPlugin (workspaceUrisOf params); TypeScriptPlugin (workspaceUrisOf params)]
   else []).

(** *** What a trace shows *)

(** The plugin given to [pluginHost.registerPlugin]. *)
Definition registeredPlugin (c : Call) : option Plugin :=
  match c with
  | pluginHost_registerPlugin plugin => Some plugin
  | _ => None
  end.

Definition registrations (t : list Call) : list Plugin := omap registeredPlugin t.

(** The options given to [pluginHost.initialize]. *)
Definition capturedConfig (c : Call) : option PluginHostConfig :=
  match c with
  | pluginHost_initialize config => Some config
  | _ => None
  end.

Definition initializations (t : list Call) : list PluginHostConfig := omap capturedConfig t.

(** The calls that clear what is kept for a document:
    [diagnosticsManager.removeDiagnostics] and
    [configManager.removeDocument]. *)
Definition clearing (c : Call) : option Call :=
  match c with
  | diagnosticsManager_removeDiagnostics _ | configManager_removeDocument _ => Some c
  | _ => None
  end.

(** The document of a [documentClose] event. *)
Definition closedDocumentOf (d : Delivery) : option AstroDocument :=
  match d with
  | Deliver _ (documentClose document) => Some document
  | _ => None
  end.

(** The cancellation token among the arguments of a call. *)
Definition forwardedToken (c : Call) : option CancellationToken :=
  match c with
  | pluginHost_getCodeActions _ _ _ cancellationToken
  | pluginHost_getDocumentSymbols _ cancellationToken
  | pluginHost_getSemanticTokens _ _ cancellationToken
  | pluginHost_getInlayHints _ _ cancellationToken
  | pluginHost_getSignatureHelp _ _ _ cancellationToken => Some cancellationToken
  | _ => None
  end.

(** A feature query of the plugin host. *)
Definition isFeatureQuery (c : Call) : bool :=
  match c with
  | pluginHost_doHover _ _
  | pluginHost_getDefinitions _ _
  | pluginHost_getFoldingRanges _
  | pluginHost_getCodeActions _ _ _ _
  | pluginHost_getCompletions _ _ _
  | pluginHost_getDocumentSymbols _ _
  | pluginHost_getSemanticTokens _ _ _
  | pluginHost_getLinkedEditingRanges _ _
  | pluginHost_formatDocument _ _
  | pluginHost_getDocumentColors _
  | pluginHost_getColorPresentations _ _ _
  | pluginHost_getInlayHints _ _ _
  | pluginHost_doTagComplete _ _
  | pluginHost_getSignatureHelp _ _ _ _
  | pluginHost_rename _ _ _ => true
  | _ => false
  end.

(** The feature requests: every request but completion resolve and the
    file-rename request of the extension client. *)
Definition isFeatureRequest (r : Request) : bool :=
  match r with
  | CompletionResolveRequest _ | GetEditsForFileRenameRequest _ => false
  | _ => true
  end.

(** The feature requests whose handler declares the [cancellationToken]
    parameter. *)
Definition declaresToken (r : Request) : bool :=
  match r with
  | CodeActionRequest _ _ _
  | DocumentSymbolRequest _
  | SemanticTokensRequest _
  | SemanticTokensRangeRequest _ _
  | InlayHintRequest _ _
  | SignatureHelpRequest _ _ _ => true
  | _ => false
  end.

(** *** The debounced diagnostics of changed documents *)

Abbreviation DocumentInput := (@DebounceThrottle.Input string AstroDocument).

(** A call of the debounced listener of line 271 is a trigger, keyed by
    the document. *)
Definition documentChangeTrigger (c : Call) : option DocumentInput :=
  match c with
  | debounced_documentChange document =>
      Some (DebounceThrottle.Trigger (uri document) document)
  | _ => None
  end.

(** What the timer of the debounced listener sees during a run. *)
Fixpoint documentChangeSchedule (inputs : list Delivery) (s : ServerState)
    : list DocumentInput :=
  match inputs with
  | [] => []
  | Wait dt :: rest => DebounceThrottle.Elapse dt :: documentChangeSchedule rest s
  | Deliver o e :: rest =>
      let r := step o e s in
      omap documentChangeTrigger (trace r) ++ documentChangeSchedule rest (final r)
  end.

(** The timers of the debounced listener that fire during a run: for
    each wait of the run, the documents whose timer fired, with the
    time of the firing.  The wrapped callback is run on them in
    [timeline] below. *)
Definition documentChangeFirings (inputs : list Delivery)
    : list (gmap string (nat * AstroDocument)) :=
  DebounceThrottle.run debounceInterval
    (documentChangeSchedule inputs initialState) DebounceThrottle.idle.

(** The firings of the timer of one document. *)
Definition firingsOf (documentUri : string) (inputs : list Delivery)
    : list (nat * AstroDocument) :=
  DebounceThrottle.recomputesOf documentUri (documentChangeFirings inputs).



(** *** The server and the timers of the debounced listener *)

(** The state of the server together with the timers of the function
    that [debounceThrottle] returned on line 271. *)
Record Running : Type :=
  { serverState : ServerState;
    changeTimers : @DebounceThrottle.State string _ _ AstroDocument }.

Definition started : Running :=
  {| serverState := initialState; changeTimers := DebounceThrottle.idle |}.

(** Timers fire in the order of their deadlines. *)
Definition firesBefore (x y : string * (nat * AstroDocument)) : Prop := x.2.1 ≤ y.2.1.

#[global] Instance firesBefore_dec x y : Decision (firesBefore x y).
Proof. unfold firesBefore. apply _. Defined.

(** The timers that fired run the callback wrapped on line 271, one
    after the other; every call the callback makes is kept with the
    time of the firing. *)
Fixpoint runCallbacks (o : Oracle) (fired : list (string * (nat * AstroDocument)))
    (s : ServerState) : ServerState * list (nat * Call) :=
  match fired with
  | [] => (s, [])
  | entry :: rest =>
      let out := exec o (documentChange_callback entry.2.2) s in
      let after := runCallbacks o rest (final out) in
      (after.1, ((λ c, (entry.2.1, c)) <$> trace out) ++ after.2)
  end.

(** The calls of a run with their times: the calls of the callbacks of
    the deliveries, at the time of the delivery, and the calls of the
    callback of the debounced listener of line 271, at the times its
    timers fire.  A call of the debounced listener only starts or
    renews the timer of its document.  The timer of the other debounced
    function, [updateAllDiagnostics], is not followed here: its calls
    are on the timeline, the [updateAll] it starts later is not.
    [timerOracle] says what the collaborators answer to the calls made
    from timers. *)
Fixpoint timeline (timerOracle : Oracle) (inputs : list Delivery) (r : Running)
    : list (nat * Call) :=
  match inputs with
  | [] => []
  | Wait dt :: rest =>
      let passed := DebounceThrottle.elapse debounceInterval dt (changeTimers r) in
      let ran :=
        runCallbacks timerOracle (merge_sort firesBefore (map_to_list passed.2))
          (serverState r) in
      ran.2 ++ timeline timerOracle rest {| serverState := ran.1; changeTimers := passed.1 |}
  | Deliver o e :: rest =>
      let out := step o e (serverState r) in
      ((λ c, (DebounceThrottle.now (changeTimers r), c)) <$> trace out)
      ++ timeline timerOracle rest
           {| serverState := final out;
              changeTimers :=
                DebounceThrottle.advance debounceInterval
                  (omap documentChangeTrigger (trace out)) (changeTimers r) |}
  end.




(** *** Further observations *)

(** [v == null]: the value is undefined or null. *)
Definition nullish (v : JsValue) : bool :=
  match v with
  | JsUndefined | JsNull => true
  | _ => false
  end.

(** The message of a [connection.sendNotification] call. *)
Definition sentNotification (c : Call) : option ShowMessageParams :=
  match c with
  | connection_sendNotification params => Some params
  | _ => None
  end.

(** The version that [getUserAstroVersion] finds for a workspace, after
    [urlToPath] has turned its URI into a path (lines 48 to 50). *)
Definition versionAt (o : Oracle) (workspaceUri : string) : AstroVersion :=
  o (getUserAstroVersion (o (urlToPath workspaceUri))).

(** A call of the debounced full recompute. *)
Definition fullRecomputeTrigger (c : Call) : option unit :=
  match c with
  | updateAllDiagnostics => Some tt
  | _ => None
  end.

(** The deliveries whose callback calls [updateAllDiagnostics]: lines
    197, 260 and 266. *)
Definition requestsFullRecompute (d : Delivery) : bool :=
  match d with
  | Deliver _ (DidChangeWatchedFiles _)
  | Deliver _ (DidSaveTextDocument _ _)
  | Deliver _ (DidChangeNonAstroFile _) => true
  | _ => false
  end.

(** The calls that change the document manager. *)
Definition documentStoreCall (c : Call) : option Call :=
  match c with
  | documentManager_openDocument _
  | documentManager_markAsOpenedInClient _
  | documentManager_closeDocument _
  | documentManager_updateDocument _ _ => Some c
  | _ => None
  end.


(** Collaborators that find the given Astro version in every workspace. *)
Definition withVersion (v : AstroVersion) (o : Oracle) : Oracle :=
  fun c =>
  match c return reply c -> reply c with
  | getUserAstroVersion _ => fun _ => v
  | _ => fun r => r
  end (o c).

(** Collaborators that resolve every URL to the given path. *)
Definition withPath (path : option string) (o : Oracle) : Oracle :=
  fun c =>
  match c return reply c -> reply c with
  | urlToPath _ => fun _ => path
  | _ => fun r => r
  end (o c).

(** Whether the last initialize message of a run declared the
    configuration capability; false before any initialize message
    (line 42). *)
Definition declaredCapability (inputs : list Delivery) : bool :=
  match last (omap initializeParamsOf inputs) with
  | Some params => configurationCapabilityOf params
  | None => false
  end.

(** The calls into the document manager that the handlers of the
    text synchronisation notifications make (lines 169 to 178). *)
Definition textSyncCalls (d : Delivery) : list Call :=
  match d with
  | Deliver _ (DidOpenTextDocument item) =>
      [documentManager_openDocument item;
       documentManager_markAsOpenedInClient (item_uri item)]
  | Deliver _ (DidCloseTextDocument td) => [documentManager_closeDocument (td_uri td)]
  | Deliver _ (DidChangeTextDocument td contentChanges) =>
      [documentManager_updateDocument td contentChanges]
  | _ => []
  end.

(** *** Sample data for concrete runs *)

Definition sampleConfig : JsValue :=
  JsObject [("typescript", JsObject [("enabled", JsBoolean true)])].
Definition sampleSortImportKind : string := "source.sortImports".

Definition pageA : AstroDocument :=
  {| uri := "file:///src/pages/a.astro"; documentText := "<h1>a</h1>" |}.
Definition pageA' : AstroDocument :=
  {| uri := "file:///src/pages/a.astro"; documentText := "<h1>a!</h1>" |}.
Definition pageB : AstroDocument :=
  {| uri := "file:///src/pages/b.astro"; documentText := "<p>b</p>" |}.

(** Two documents edited in turn: a at 0 ms and at 600 ms, b at 300 ms
    and at 1100 ms; the run ends at 1700 ms. *)
Definition interleavedEdits : list Delivery :=
  [Deliver quietOracle (documentChange pageA); Wait 300;
   Deliver quietOracle (documentChange pageB); Wait 300;
   Deliver quietOracle (documentChange pageA'); Wait 500;
   Deliver quietOracle (documentChange pageB); Wait 600].

Definition page (documentUri : string) : TextDocumentIdentifier := {| td_uri := documentUri |}.
Definition origin : Position := {| line := 0; character := 0 |}.
Definition firstLine : Range :=
  {| range_start := origin; range_end := {| line := 1; character := 0 |} |}.

(** A client that sends a workspace folder and names its environment. *)
Definition paramsIn (environment : string) : InitializeParams :=
  {| workspaceFolders := Some [{| folder_uri := "file:///site"; folder_name := "site" |}];
     rootUri := Some "file:///site";
     capabilities :=
       {| workspace := Some {| configuration := Some true |};
          textDocument := Some {| definition := Some {| linkSupport := Some true |} |} |};
     initializationOptions := JsObject [("environment", JsString environment)] |}.

(** A client that sends no initialization options. *)
Definition paramsWithoutOptions : InitializeParams :=
  {| workspaceFolders := None;
     rootUri := Some "file:///site";
     capabilities := {| workspace := None; textDocument := None |};
     initializationOptions := JsUndefined |}.

(** Astro 0.22.7, installed. *)
Definition astro_0_22_7 : AstroVersion :=
  {| full := "0.22.7"; major := 0; minor := 22; patch := 7; exist := true |}.

(** Collaborators that resolve the URLs of the file scheme and no
    others. *)
Definition fileUrlOracle : Oracle :=
  fun c =>
  match c return reply c -> reply c with
  | urlToPath url =>
      fun _ =>
        if String.prefix "file://" url
        then Some (String.substring 7 (String.length url - 7) url)
        else None
  | _ => fun r => r
  end (quietOracle c).

(** A batch with a file of the workspace and a buffer without a file. *)
Definition mixedBatch : DidChangeWatchedFilesParams :=
  {| changes :=
       [{| fe_uri := "untitled:Untitled-1"; fe_type := Created |};
        {| fe_uri := "file:///site/src/pages/a.astro"; fe_type := Changed |}] |}.

(** * Properties *)

(** ** The timers of the debounced functions *)

Section SchedulerFacts.
Import DebounceThrottle.
Context {K : Type} `{Countable K} {A : Type}.
Variable interval : nat.
Hypothesis interval_positive : 0 < interval.

Implicit Types (s : @State K _ _ A) (k : K) (a : A) (p : @Pending A).
Implicit Types (inputs : list (@Input K A)).























End SchedulerFacts.

(** ** The handler monad *)

Ltac unfold_monad := unfold unit_done, mbind, Prog_bind, fmap, Prog_fmap in *.

Section ProgFacts.
Context {A B : Type}.
Implicit Types (o : Oracle) (s : ServerState).

Lemma exec_bind o (p : Prog A) (f : A → Prog B) s :
  exec o (bind p f) s =
  match result (exec o p s) with
  | Returned a =>
      let r := exec o (f a) (final (exec o p s)) in
      {| final := final r; trace := trace (exec o p s) ++ trace r; result := result r |}
  | Thrown e =>
      {| final := final (exec o p s); trace := trace (exec o p s); result := Thrown e |}
  end.
Proof.
  revert s. induction p as [a|e|c k IH|k IH|b k IH]; intros s; simpl.
  - by destruct (exec o (f a) s).
  - done.
  - rewrite IH. by destruct (result (exec o (k (o c)) s)).
  - apply IH.
  - apply IH.
Qed.

Lemma everyCall_bind (P : Call → Prop) (p : Prog A) (f : A → Prog B) :
  everyCall P p → (∀ a, everyCall P (f a)) → everyCall P (p ≫= f).
Proof.
  unfold mbind, Prog_bind. intros Hp Hf.
  induction p as [a|e|c k IH|k IH|b k IH]; simpl in *.
  - apply Hf.
  - done.
  - destruct Hp as [Hc Hk]. split; [done|]. intros r. by apply IH.
  - intros b. by apply IH.
  - by apply IH.
Qed.

Lemma everyCall_trace (P : Call → Prop) o (p : Prog A) s :
  everyCall P p → Forall P (trace (exec o p s)).
Proof.
  revert s. induction p as [a|e|c k IH|k IH|b k IH]; intros s Hp; simpl in *.
  - constructor.
  - constructor.
  - destruct Hp as [Hc Hk]. constructor; [done|]. by apply IH.
  - by apply IH.
  - by apply IH.
Qed.

Lemma everyCall_impl (P Q : Call → Prop) (p : Prog A) :
  (∀ c, P c → Q c) → everyCall P p → everyCall Q p.
Proof.
  intros HPQ. induction p as [a|e|c k IH|k IH|b k IH]; simpl; try done.
  - intros [Hc Hk]. split; [by apply HPQ|]. intros r. by apply IH.
  - intros Hk b. by apply IH.
Qed.

End ProgFacts.

Lemma everyCall_forEach {A : Type} (P : Call → Prop) (xs : list A) (f : A → Prog unit) :
  (∀ x, everyCall P (f x)) → everyCall P (forEach xs f).
Proof.
  intros Hf. induction xs as [|x rest IH]; simpl; [done|].
  apply everyCall_bind; [apply Hf|]. intros _. apply IH.
Qed.

Lemma everyCall_mapM {A B : Type} (P : Call → Prop) (f : A → Prog B) (xs : list A) :
  (∀ x, everyCall P (f x)) → everyCall P (mapM f xs).
Proof.
  intros Hf. induction xs as [|x rest IH]; simpl; [done|].
  apply everyCall_bind; [apply Hf|]. intros y.
  apply everyCall_bind; [apply IH|]. done.
Qed.

Lemma everyCall_eval {A : Type} (P : Call → Prop) (r : Result A) : everyCall P (eval r).
Proof. by destruct r. Qed.

Lemma omap_unobserved {B : Type} (f : Call → option B) (t : list Call) :
  Forall (λ c, f c = None) t → omap f t = [].
Proof.
  induction 1 as [|c t Hc _ IH]; [done|]. cbn [omap list_omap]. by rewrite Hc.
Qed.

(** ** The callbacks *)

Implicit Types (o : Oracle) (s : ServerState) (e : Event).

(** One step through the call tree of a handler. *)
Ltac walk_step :=
  first
    [ done
    | progress intros
    | progress simpl
    | split
    | apply everyCall_forEach
    | apply everyCall_eval
    | progress unfold onCompletionResolve
    | apply everyCall_mapM
    | apply everyCall_bind
    | match goal with
      | |- context [if ?b then _ else _] => destruct b
      | |- context [match ?x with _ => _ end] => destruct x
      end ].

(** The version check of the workspaces calls [urlToPath],
    [getUserAstroVersion] and [connection.sendNotification] only. *)
Lemma everyCall_checkAstroVersion (P : Call → Prop) workspaceUri :
  (∀ u, P (urlToPath u)) →
  (∀ b, P (getUserAstroVersion b)) →
  (∀ m, P (connection_sendNotification m)) →
  everyCall P (checkAstroVersion workspaceUri).
Proof. intros H1 H2 H3. unfold checkAstroVersion. repeat walk_step. Qed.

Ltac walk := repeat first [apply everyCall_checkAstroVersion | walk_step].

(** The version check neither throws nor touches the capability flag. *)
Lemma exec_checkAstroVersion o workspaceUri s :
  final (exec o (checkAstroVersion workspaceUri) s) = s
  ∧ result (exec o (checkAstroVersion workspaceUri) s) = Returned tt.
Proof.
  unfold checkAstroVersion. simpl.
  repeat (match goal with |- context [if ?b then _ else _] => destruct b end; simpl).
  all: split; [done|]; try done; by destruct (o _).
Qed.

Lemma exec_forEach_checkAstroVersion o uris s :
  final (exec o (forEach uris checkAstroVersion) s) = s
  ∧ result (exec o (forEach uris checkAstroVersion) s) = Returned tt.
Proof.
  induction uris as [|u rest IH]; [done|].
  cbn [forEach]. unfold_monad. rewrite exec_bind.
  destruct (exec_checkAstroVersion o u s) as [Hf Hr]. rewrite Hr, Hf.
  by destruct IH.
Qed.

(** Outside the initialize handler no path calls
    [pluginHost.initialize] or [pluginHost.registerPlugin]. *)
Lemma only_onInitialize_configures e :
  (if e is Initialize _ then False else True) →
  everyCall (λ c, registeredPlugin c = None ∧ capturedConfig c = None) (handle e).
Proof. destruct e as [| | | | | | | | |r tok| |]; try done; intros _; try destruct r; walk. Qed.


(** The initialize handler, run. *)
Lemma exec_onInitialize o params s :
  exec o (onInitialize params) s =
  {| final := {| hasConfigurationCapability := configurationCapabilityOf params |};
     trace :=
       trace (exec o (forEach (workspaceUrisOf params) checkAstroVersion) s)
       ++ pluginHost_initialize (pluginHostConfigOf params)
       :: pluginHost_registerPlugin HTMLPlugin
       :: pluginHost_registerPlugin CSSPlugin
       :: match getProp (initializationOptions params) "environment" with
          | Returned environment =>
              (if strictNeqString environment "browser"
               then [pluginHost_registerPlugin (AstroPlugin (workspaceUrisOf params));
                     pluginHost_registerPlugin (TypeScriptPlugin (workspaceUrisOf params))]
               else [])
              ++ [getSemanticTokenLegend]
          | Thrown _ => []
          end;
     result :=
       match getProp (initializationOptions params) "environment" with
       | Returned _ =>
           Returned {| server_capabilities := serverCapabilities (o getSemanticTokenLegend) |}
       | Thrown err => Thrown err
       end |}.
Proof.
  unfold onInitialize. unfold_monad. rewrite exec_bind.
  destruct (exec_forEach_checkAstroVersion o (workspaceUrisOf params) s) as [Hf Hr].
  rewrite Hr, Hf. simpl.
  destruct (getProp (initializationOptions params) "environment") as [environment|err];
    simpl; [|done].
  by destruct (strictNeqString environment "browser").
Qed.

Lemma exec_fmap {A B : Type} o (f : A → B) (p : Prog A) s :
  final (exec o (f <$> p) s) = final (exec o p s)
  ∧ trace (exec o (f <$> p) s) = trace (exec o p s)
  ∧ result (exec o (f <$> p) s) =
      match result (exec o p s) with
      | Returned a => Returned (f a)
      | Thrown err => Thrown err
      end.
Proof.
  unfold_monad. rewrite exec_bind.
  destruct (result (exec o p s)); simpl; [|done]. by rewrite app_nil_r.
Qed.

(** The version checks are invisible to an observer of other calls. *)
Lemma omap_versionChecks {B : Type} (f : Call → option B) o uris s :
  (∀ u, f (urlToPath u) = None) →
  (∀ b, f (getUserAstroVersion b) = None) →
  (∀ m, f (connection_sendNotification m) = None) →
  omap f (trace (exec o (forEach uris checkAstroVersion) s)) = [].
Proof.
  intros H1 H2 H3. apply omap_unobserved, everyCall_trace, everyCall_forEach.
  intros u. by apply everyCall_checkAstroVersion.
Qed.

Lemma registrations_step o e s :
  registrations (trace (step o e s)) =
  match e with
  | Initialize params => registeredBy params
  | _ => []
  end.
Proof.
  destruct e as [params| | | | | | | | | | |].
  2-12: apply omap_unobserved, everyCall_trace;
    (eapply everyCall_impl; [|by apply only_onInitialize_configures]); by intros c [? ?].
  unfold step, handle.
  destruct (exec_fmap o InitializeDone (onInitialize params) s) as (_ & -> & _).
  rewrite exec_onInitialize. cbn [trace]. unfold registrations. rewrite omap_app.
  rewrite omap_versionChecks by done.
  unfold registeredBy, outsideBrowser. simpl.
  destruct (getProp (initializationOptions params) "environment") as [environment|err];
    simpl; [|done].
  by destruct (strictNeqString environment "browser").
Qed.

Lemma initializations_step o e s :
  initializations (trace (step o e s)) =
  match e with
  | Initialize params => [pluginHostConfigOf params]
  | _ => []
  end.
Proof.
  destruct e as [params| | | | | | | | | | |].
  2-12: apply omap_unobserved, everyCall_trace;
    (eapply everyCall_impl; [|by apply only_onInitialize_configures]); by intros c [? ?].
  unfold step, handle.
  destruct (exec_fmap o InitializeDone (onInitialize params) s) as (_ & -> & _).
  rewrite exec_onInitialize. cbn [trace]. unfold initializations. rewrite omap_app.
  rewrite omap_versionChecks by done. simpl.
  destruct (getProp (initializationOptions params) "environment") as [environment|err];
    simpl; [|done].
  by destruct (strictNeqString environment "browser").
Qed.

Lemma initializations_serve inputs s :
  initializations (serve inputs s) = pluginHostConfigOf <$> omap initializeParamsOf inputs.
Proof.
  revert s. induction inputs as [|[dt|o e] rest IH]; intros s; simpl; [done|apply IH|].
  unfold initializations in *. rewrite omap_app.
  pose proof (initializations_step o e s) as He. unfold initializations in He.
  rewrite He, IH. by destruct e.
Qed.

Lemma registrations_serve inputs s :
  registrations (serve inputs s) = omap initializeParamsOf inputs ≫= registeredBy.
Proof.
  revert s. induction inputs as [|[dt|o e] rest IH]; intros s; simpl; [done|apply IH|].
  unfold registrations in *. rewrite omap_app.
  pose proof (registrations_step o e s) as He. unfold registrations in He.
  rewrite He, IH. by destruct e.
Qed.

(** C6: the options of the dispatch engine are given to the plugin host
    by the initialize handler and by nothing else.  Whatever message or
    event is delivered, the calls of [pluginHost.initialize] its callback
    makes are none, unless it is an initialize message, and then there
    is one, with [filterIncompleteCompletions] the negation of the
    initialization option [dontFilterIncompleteCompletions] and
    [definitionLinkSupport] the client capability
    [textDocument.definition.linkSupport]; over a whole run the plugin
    host is given options once per initialize message; and no path of
    any other callback reaches [pluginHost.initialize]. *)
Theorem pluginHost_options_captured_by_initialize :
  (∀ o e s,
     initializations (trace (step o e s)) =
     match e with
     | Initialize params => [pluginHostConfigOf params]
     | _ => []
     end)
  ∧ (∀ inputs s,
       initializations (serve inputs s)
       = pluginHostConfigOf <$> omap initializeParamsOf inputs)
  ∧ (∀ e,
       match e with
       | Initialize _ => True
       | _ => everyCall (λ c, capturedConfig c = None) (handle e)
       end)
  ∧ (∀ params,
       filterIncompleteCompletions (pluginHostConfigOf params)
       = negb (truthy (getPropOpt (initializationOptions params)
                         "dontFilterIncompleteCompletions"))
       ∧ definitionLinkSupport (pluginHostConfigOf params)
         = default false
             ((textDocument (capabilities params) ≫= definition) ≫= linkSupport)).
Proof.
  split; [apply initializations_step|].
  split; [apply initializations_serve|].
  split.
  - intros e. destruct e; try done;
      (eapply everyCall_impl; [|by apply only_onInitialize_configures]); by intros c [? ?].
  - intros params. split; [done|].
    unfold pluginHostConfigOf; simpl.
    destruct (textDocument (capabilities params)) as [t|]; simpl; [|done].
    destruct (definition t) as [d|]; simpl; [|done].
    by destruct (linkSupport d).
Qed.

(** C7: the provider registry is built by the initialize handler only.
    An initialize message registers the HTML plugin, then the CSS
    plugin, then, when line 79 reads an environment other than
    'browser', the Astro plugin and the TypeScript plugin, in that
    order; the callback of any other message or event registers
    nothing, on any path; over a whole run the registrations are those
    of the initialize messages, in order. *)
Theorem provider_registry_built_by_initialize :
  (∀ o e s,
     registrations (trace (step o e s)) =
     match e with
     | Initialize params =>
         HTMLPlugin :: CSSPlugin ::
         (if outsideBrowser params
          then [AstroPlugin (workspaceUrisOf params);
                TypeScriptPlugin (workspaceUrisOf params)]
          else [])
     | _ => []
     end)
  ∧ (∀ inputs s,
       registrations (serve inputs s) = omap initializeParamsOf inputs ≫= registeredBy)
  ∧ (∀ e,
       match e with
       | Initialize _ => True
       | _ => everyCall (λ c, registeredPlugin c = None) (handle e)
       end).
Proof.
  split; [apply registrations_step|].
  split; [apply registrations_serve|].
  intros e. destruct e; try done;
    (eapply everyCall_impl; [|by apply only_onInitialize_configures]); by intros c [? ?].
Qed.

(** When the initialization options are an object (or any value other
    than undefined and null), the Astro and TypeScript plugins are
    registered exactly when the environment is not 'browser'. *)
Lemma astro_typescript_registered_iff o params environment s :
  getProp (initializationOptions params) "environment" = Returned environment →
  registrations (trace (step o (Initialize params) s)) =
  if strictNeqString environment "browser"
  then [HTMLPlugin; CSSPlugin; AstroPlugin (workspaceUrisOf params);
        TypeScriptPlugin (workspaceUrisOf params)]
  else [HTMLPlugin; CSSPlugin].
Proof.
  intros Henv. rewrite registrations_step. unfold registeredBy, outsideBrowser.
  rewrite Henv. by destruct (strictNeqString environment "browser").
Qed.

(** C10: an initialize message without initialization options.  The
    environment it names is not 'browser' (it names none), yet the
    handler throws on line 79 after registering the HTML and the CSS
    plugin: the Astro and the TypeScript plugin are not registered. *)
Theorem initialize_without_options_throws o folders root clientCapabilities s :
  let params :=
    {| workspaceFolders := folders; rootUri := root;
       capabilities := clientCapabilities; initializationOptions := JsUndefined |} in
  strictNeqString (getPropOpt (initializationOptions params) "environment") "browser" = true
  ∧ registrations (trace (step o (Initialize params) s)) = [HTMLPlugin; CSSPlugin]
  ∧ result (step o (Initialize params) s)
    = Thrown (TypeError "Cannot read properties of undefined (reading 'environment')").
Proof.
  intros params. split; [done|]. split.
  - by rewrite registrations_step.
  - unfold step, handle.
    destruct (exec_fmap o InitializeDone (onInitialize params) s) as (_ & _ & ->).
    by rewrite exec_onInitialize.
Qed.

(** *** Configuration changes *)

Lemma exec_forEach_calls {A : Type} o (xs : list A) (f : A → Prog unit) (g : A → Call) s :
  (∀ x s', exec o (f x) s' = {| final := s'; trace := [g x]; result := Returned tt |}) →
  exec o (forEach xs f) s = {| final := s; trace := g <$> xs; result := Returned tt |}.
Proof.
  intros Hf. revert s. induction xs as [|x rest IH]; intros s; [done|].
  cbn [forEach]. unfold_monad. by rewrite exec_bind, Hf, IH.
Qed.

Lemma step_DidChangeConfiguration o change s :
  step o (DidChangeConfiguration change) s =
  if hasConfigurationCapability s
  then {| final := s;
          trace :=
            configManager_updateConfig :: documentManager_getAllOpenedByClient ::
            ((λ document, configManager_getConfig "astro" (uri document.2))
               <$> o documentManager_getAllOpenedByClient);
          result := Returned Done |}
  else match getProp (settings change) "astro" with
       | Returned astro =>
           {| final := s;
              trace := [configManager_updateGlobalConfig (jsOr astro defaultLSConfig)];
              result := Returned Done |}
       | Thrown err => {| final := s; trace := []; result := Thrown err |}
       end.
Proof.
  unfold step, handle, onDidChangeConfiguration. destruct s as [[|]]; simpl.
  - unfold_monad. rewrite exec_bind.
    rewrite (exec_forEach_calls o _ _
               (λ document, configManager_getConfig "astro" (uri document.2))) by done.
    simpl. by rewrite app_nil_r.
  - by destruct (getProp (settings change) "astro").
Qed.

Lemma getProp_returned v name :
  nullish v = false → getProp v name = Returned (getPropOpt v name).
Proof. by destruct v. Qed.

(** C5: a configuration change whose settings can be read runs exactly
    one of two modes, chosen by the capability flag.  With dynamic
    configuration the handler calls [configManager.updateConfig()] and
    then [configManager.getConfig('astro', uri)] for every document
    that [documentManager.getAllOpenedByClient()] returns, in order,
    and nothing else; the settings of the message are not read.
    Without it, and when [change.settings] is neither undefined nor
    null, reading [change.settings.astro] returns a value and the
    handler makes the single call [configManager.updateGlobalConfig],
    with that value when it is truthy and with [defaultLSConfig]
    otherwise.  In both modes the handler returns normally and leaves
    the capability flag as it is. *)
Theorem configuration_change_two_modes o change s :
  (hasConfigurationCapability s = true →
   step o (DidChangeConfiguration change) s =
   {| final := s;
      trace :=
        configManager_updateConfig :: documentManager_getAllOpenedByClient ::
        ((λ document, configManager_getConfig "astro" (uri document.2))
           <$> o documentManager_getAllOpenedByClient);
      result := Returned Done |})
  ∧ (hasConfigurationCapability s = false →
     nullish (settings change) = false →
     ∃ astro,
       getProp (settings change) "astro" = Returned astro
       ∧ step o (DidChangeConfiguration change) s =
         {| final := s;
            trace :=
              [configManager_updateGlobalConfig
                 (if truthy astro then astro else defaultLSConfig)];
            result := Returned Done |}).
Proof.
  rewrite step_DidChangeConfiguration. split.
  - by intros ->.
  - intros -> Hsettings. exists (getPropOpt (settings change) "astro").
    by rewrite getProp_returned.
Qed.

(** Without the configuration capability, a configuration change whose
    settings are an object or a primitive and carry no 'astro' value
    (or a falsy one) installs [defaultLSConfig] as the global
    configuration, and the handler returns normally. *)
Lemma missing_astro_settings_fall_back_to_default o change astro s :
  hasConfigurationCapability s = false →
  getProp (settings change) "astro" = Returned astro →
  truthy astro = false →
  trace (step o (DidChangeConfiguration change) s)
  = [configManager_updateGlobalConfig defaultLSConfig]
  ∧ result (step o (DidChangeConfiguration change) s) = Returned Done.
Proof.
  intros Hcap Hastro Hfalsy. rewrite step_DidChangeConfiguration, Hcap, Hastro.
  unfold jsOr. by rewrite Hfalsy.
Qed.

(** C8: a pushed configuration change that carries no settings at all.
    While the capability flag is off, as it is when the server starts,
    the handler reads [change.settings.astro] on line 164 although
    [change.settings] is null or undefined: it throws a TypeError,
    calls nothing, and [defaultLSConfig] is not installed.  The
    fallback [|| defaultLSConfig] of the same line is reached only when
    the read returns. *)
Theorem pushed_change_without_settings_throws o :
  let s := {| hasConfigurationCapability := false |} in
  initialState = s
  ∧ step o (DidChangeConfiguration {| settings := JsNull |}) s
    = {| final := s; trace := [];
         result := Thrown (TypeError "Cannot read properties of null (reading 'astro')") |}
  ∧ step o (DidChangeConfiguration {| settings := JsUndefined |}) s
    = {| final := s; trace := [];
         result :=
           Thrown (TypeError "Cannot read properties of undefined (reading 'astro')") |}.
Proof. intros s. split; [done|]. by rewrite !step_DidChangeConfiguration. Qed.

(** *** Full recomputes of the diagnostics *)

Lemma exec_mapM_calls {A B : Type} o (xs : list A) (f : A → Prog B)
    (g : A → Call) (h : A → B) s :
  (∀ x s', exec o (f x) s' = {| final := s'; trace := [g x]; result := Returned (h x) |}) →
  exec o (mapM f xs) s = {| final := s; trace := g <$> xs; result := Returned (h <$> xs) |}.
Proof.
  intros Hf. revert s. induction xs as [|x rest IH]; intros s; [done|].
  cbn [mapM]. unfold_monad. rewrite exec_bind, Hf. cbn [result final trace].
  rewrite exec_bind, IH. cbn. by rewrite app_nil_r.
Qed.

Lemma step_DidChangeWatchedFiles o evt s :
  step o (DidChangeWatchedFiles evt) s =
  {| final := s;
     trace :=
       ((λ c, urlToPath (fe_uri c)) <$> changes evt)
       ++ [pluginHost_onWatchFileChanges
             (List.filter hasFileName
                ((λ c, {| fileName := o (urlToPath (fe_uri c));
                          changeType := fe_type c |}) <$> changes evt));
           updateAllDiagnostics];
     result := Returned Done |}.
Proof.
  unfold step, handle, onDidChangeWatchedFiles. repeat unfold_monad.
  rewrite exec_bind, exec_bind.
  rewrite (exec_mapM_calls o _ _ (λ c, urlToPath (fe_uri c))
             (λ c, {| fileName := o (urlToPath (fe_uri c)); changeType := fe_type c |}))
    by done.
  simpl. by rewrite app_nil_r.
Qed.

(** C2, amended: the debounced full recompute [updateAllDiagnostics]
    (which wraps [diagnosticsManager.updateAll()]) is called after a
    batch of watched-file changes and after a document save; the
    handler of a configuration change calls neither it nor
    [diagnosticsManager.updateAll()]. *)
Theorem updateAll_after_watched_files_and_save :
  (∀ o evt s, updateAllDiagnostics ∈ trace (step o (DidChangeWatchedFiles evt) s))
  ∧ (∀ o td text s, updateAllDiagnostics ∈ trace (step o (DidSaveTextDocument td text) s))
  ∧ (∀ o change s,
       (updateAllDiagnostics ∉ trace (step o (DidChangeConfiguration change) s))
       ∧ (diagnosticsManager_updateAll ∉ trace (step o (DidChangeConfiguration change) s))).
Proof.
  split; [|split].
  - intros o evt s. rewrite step_DidChangeWatchedFiles. cbn [trace].
    rewrite elem_of_app. right. apply list_elem_of_further, list_elem_of_here.
  - intros o td text s. apply list_elem_of_here.
  - intros o change s.
    assert (Forall (λ c, c ≠ updateAllDiagnostics ∧ c ≠ diagnosticsManager_updateAll)
              (trace (step o (DidChangeConfiguration change) s))) as Hall.
    { apply everyCall_trace. walk. }
    rewrite Forall_forall in Hall.
    split; intros Hin; by destruct (Hall _ Hin).
Qed.

(** *** Feature requests *)

(** C3, amended: a feature request makes one query to the plugin host.
    The query carries the cancellation token of the request for code
    actions, document symbols, semantic tokens (full and range), inlay
    hints and signature help; for the other features (hover,
    definition, folding ranges, completion, linked editing ranges,
    formatting, document colors, color presentations, tag close,
    rename) it carries no token. *)
Theorem cancellation_token_forwarded_where_declared o r cancellationToken s :
  isFeatureRequest r = true →
  ∃ c, trace (step o (Incoming r cancellationToken) s) = [c]
       ∧ isFeatureQuery c = true
       ∧ forwardedToken c = if declaresToken r then Some cancellationToken else None.
Proof. destruct r; try done; intros _; by eexists. Qed.

(** C9: resolving a completion item.  An item whose [data] is falsy is
    returned as it is, and no call is made; an item with [data] makes
    the one call [pluginHost.resolveCompletion(data, completionItem)],
    whose answer is returned. *)
Theorem completion_resolve_routes_by_data o completionItem cancellationToken s :
  let r := step o (Incoming (CompletionResolveRequest completionItem) cancellationToken) s in
  (truthy (data completionItem) = false →
     trace r = [] ∧ result r = Returned (Item completionItem))
  ∧ (truthy (data completionItem) = true →
       trace r = [pluginHost_resolveCompletion (data completionItem) completionItem]
       ∧ result r
         = Returned (Item (o (pluginHost_resolveCompletion (data completionItem)
                                completionItem)))).
Proof.
  unfold step, handle, handleRequest, onCompletionResolve. unfold_monad.
  split; intros Hdata; rewrite Hdata; done.
Qed.

(** *** Closing a document *)

(** Outside the listener of [documentClose] no path clears the
    diagnostics or the configuration of a document. *)
Lemma only_onDocumentClose_clears e :
  (if e is documentClose _ then False else True) →
  everyCall (λ c, clearing c = None) (handle e).
Proof. destruct e as [| | | | | | | | |r tok| |]; try done; intros _; try destruct r; walk. Qed.

Lemma clearing_step o e s :
  omap clearing (trace (step o e s)) =
  match e with
  | documentClose document =>
      [diagnosticsManager_removeDiagnostics document;
       configManager_removeDocument (uri document)]
  | _ => []
  end.
Proof.
  destruct e as [| | | | | | | | | | |document]; [..|done].
  all: apply omap_unobserved, everyCall_trace; by apply only_onDocumentClose_clears.
Qed.

(** C4: when [documentClose] fires for a document, the listener calls
    [diagnosticsManager.removeDiagnostics(document)] and then
    [configManager.removeDocument(document.uri)], makes no other call,
    and leaves the state of the server as it was.  Over a whole run,
    these two calls are made for the documents of the [documentClose]
    events, in order, and for no other reason. *)
Theorem documentClose_clears_diagnostics_and_config :
  (∀ o document s,
     step o (documentClose document) s =
     {| final := s;
        trace := [diagnosticsManager_removeDiagnostics document;
                  configManager_removeDocument (uri document)];
        result := Returned Done |})
  ∧ (∀ inputs s,
       omap clearing (serve inputs s) =
       omap closedDocumentOf inputs ≫= λ document,
         [diagnosticsManager_removeDiagnostics document;
          configManager_removeDocument (uri document)]).
Proof.
  split; [done|].
  intros inputs. induction inputs as [|[dt|o e] rest IH]; intros s; simpl; [done|apply IH|].
  rewrite omap_app, clearing_step, IH. by destruct e.
Qed.

(** *** Diagnostics of changed documents *)






(** ** Further properties of the callbacks *)

Ltac walk_all := repeat first [walk_step | apply everyCall_checkAstroVersion].

(** *** The capability flag *)

Lemma final_step o e s :
  final (step o e s) =
  match e with
  | Initialize params =>
      {| hasConfigurationCapability := configurationCapabilityOf params |}
  | _ => s
  end.
Proof.
  destruct e as [params| |change| | | |evt| |nonAstro|r tok| |].
  - unfold step, handle.
    destruct (exec_fmap o InitializeDone (onInitialize params) s) as (-> & _ & _).
    by rewrite exec_onInitialize.
  - unfold step, handle, onInitialized. unfold_monad. by destruct s as [[|]].
  - rewrite step_DidChangeConfiguration.
    destruct (hasConfigurationCapability s); [done|].
    by destruct (getProp (settings change) "astro").
  - done.
  - done.
  - done.
  - by rewrite step_DidChangeWatchedFiles.
  - done.
  - unfold step, handle, onDidChangeNonAstroFile. unfold_monad. simpl.
    by destruct (o (urlToPath (nonAstro_uri nonAstro))) as [[|]|].
  - destruct r; try done.
    unfold step, handle, handleRequest, onCompletionResolve. unfold_monad.
    by destruct (negb (truthy (data completionItem))).
  - done.
  - done.
Qed.

Lemma stateAfter_last_initialize inputs s :
  stateAfter inputs s =
  match last (omap initializeParamsOf inputs) with
  | Some params =>
      {| hasConfigurationCapability := configurationCapabilityOf params |}
  | None => s
  end.
Proof.
  revert s. induction inputs as [|[dt|o e] rest IH]; intros s; [done|apply IH|].
  cbn [stateAfter]. rewrite IH, final_step.
  destruct e as [params| | | | | | | | | | |]; try done.
  change (omap initializeParamsOf (Deliver o (Initialize params) :: rest))
    with (params :: omap initializeParamsOf rest).
  rewrite last_cons. by destruct (last (omap initializeParamsOf rest)).
Qed.

Lemma capability_after_run inputs :
  hasConfigurationCapability (stateAfter inputs initialState) = declaredCapability inputs.
Proof.
  rewrite stateAfter_last_initialize. unfold declaredCapability.
  by destruct (last (omap initializeParamsOf inputs)).
Qed.

(** X1: only the initialize handler assigns [hasConfigurationCapability].
    The callback of an initialize message sets the flag to
    [!!(capabilities.workspace && !!capabilities.workspace.configuration)],
    also when it throws later; every other callback leaves the flag as
    it was.  After a run the flag is the one of the last initialize
    message, or unchanged when there was none. *)
Theorem capability_flag_follows_last_initialize :
  (∀ o e s,
     final (step o e s) =
     match e with
     | Initialize params =>
         {| hasConfigurationCapability := configurationCapabilityOf params |}
     | _ => s
     end)
  ∧ (∀ inputs s,
       stateAfter inputs s =
       match last (omap initializeParamsOf inputs) with
       | Some params =>
           {| hasConfigurationCapability := configurationCapabilityOf params |}
       | None => s
       end).
Proof.
  split; [apply final_step|apply stateAfter_last_initialize].
Qed.

(** X2: the delivery mode of a configuration change is the one the
    client declared at initialization.  After any run, the handler of a
    configuration change calls [configManager.updateConfig()] exactly
    when the last initialize message declared the configuration
    capability, and installs a global configuration only when it did
    not; before any initialize message it takes the pushed settings. *)
Theorem configuration_mode_follows_declared_capability inputs o change :
  let r := step o (DidChangeConfiguration change) (stateAfter inputs initialState) in
  (configManager_updateConfig ∈ trace r ↔ declaredCapability inputs = true)
  ∧ (∀ config,
       configManager_updateGlobalConfig config ∈ trace r →
       declaredCapability inputs = false).
Proof.
  intros r. subst r. rewrite step_DidChangeConfiguration, capability_after_run.
  destruct (declaredCapability inputs); cbn [trace].
  - split; [split; [done|intros _; apply list_elem_of_here]|].
    intros config Hin. exfalso.
    apply elem_of_cons in Hin as [Hin|Hin]; [done|].
    apply elem_of_cons in Hin as [Hin|Hin]; [done|].
    apply list_elem_of_fmap in Hin as (document & Hc & _). done.
  - split; [|done]. split; [|done]. intros Hin.
    destruct (getProp (settings change) "astro"); cbn [trace] in Hin.
    + apply elem_of_cons in Hin as [Hin|Hin]; [done|]. by apply elem_of_nil in Hin.
    + by apply elem_of_nil in Hin.
Qed.

(** X3: after any run, the initialized handler logs its message and
    then registers for configuration-change notifications exactly when
    the last initialize message declared the configuration capability;
    it makes no other call. *)
Theorem configuration_registration_follows_declared_capability inputs o :
  trace (step o Initialized (stateAfter inputs initialState)) =
  connection_console_log "Successfully initialized! 🚀"
  :: (if declaredCapability inputs then [connection_client_register] else []).
Proof.
  rewrite <- capability_after_run.
  by destruct (stateAfter inputs initialState) as [[|]].
Qed.

(** *** The version check of the workspaces *)

Lemma notifications_checkAstroVersion o workspaceUri s :
  let sent := omap sentNotification (trace (exec o (checkAstroVersion workspaceUri) s)) in
  length sent ≤ 1
  ∧ Forall (λ m, messageType m = MessageWarning ∨ messageType m = MessageError) sent
  ∧ (sent = [] ↔
     exist (versionAt o workspaceUri) = true
     ∧ ¬ ((major (versionAt o workspaceUri) = 0)%Z
          ∧ (minor (versionAt o workspaceUri) < 24)%Z
          ∧ (patch (versionAt o workspaceUri) < 5)%Z)).
Proof.
  unfold checkAstroVersion, versionAt. simpl.
  destruct (exist _); simpl.
  - destruct (Z.eqb_spec (major (o (getUserAstroVersion (o (urlToPath workspaceUri))))) 0);
      destruct (Z.ltb_spec (minor (o (getUserAstroVersion (o (urlToPath workspaceUri))))) 24);
      destruct (Z.ltb_spec (patch (o (getUserAstroVersion (o (urlToPath workspaceUri))))) 5);
      simpl; (split; [lia|]); (split; [repeat constructor|]);
      split; try done; try (intros _; split; [done|lia]).
    intros [_ Hno]. exfalso. apply Hno. done.
  - split; [lia|]. split; [repeat constructor|]. split; [done|]. by intros [? _].
Qed.

Lemma trace_forEach_checkAstroVersion o workspaceUri uris s :
  trace (exec o (forEach (workspaceUri :: uris) checkAstroVersion) s) =
  trace (exec o (checkAstroVersion workspaceUri) s)
  ++ trace (exec o (forEach uris checkAstroVersion) s).
Proof.
  cbn [forEach]. unfold_monad. rewrite exec_bind.
  destruct (exec_checkAstroVersion o workspaceUri s) as [Hf Hr]. by rewrite Hr, Hf.
Qed.

Lemma notifications_forEach_checkAstroVersion o uris s :
  let sent := omap sentNotification (trace (exec o (forEach uris checkAstroVersion) s)) in
  length sent ≤ length uris
  ∧ Forall (λ m, messageType m = MessageWarning ∨ messageType m = MessageError) sent
  ∧ (sent = [] ↔
     ∀ u, u ∈ uris →
       exist (versionAt o u) = true
       ∧ ¬ ((major (versionAt o u) = 0)%Z
            ∧ (minor (versionAt o u) < 24)%Z
            ∧ (patch (versionAt o u) < 5)%Z)).
Proof.
  induction uris as [|u rest IH].
  - split; [done|]. split; [constructor|]. split; [|done].
    intros _ u Hu. by apply elem_of_nil in Hu.
  - cbn zeta in *. rewrite trace_forEach_checkAstroVersion, omap_app.
    destruct (notifications_checkAstroVersion o u s) as (Hlen1 & Hty1 & Hnone1).
    destruct IH as (Hlen & Hty & Hnone). cbn zeta in *.
    split; [rewrite length_app; cbn [length]; lia|].
    split; [by apply Forall_app|].
    rewrite app_nil, Hnone1, Hnone. split.
    + intros [Hu Hrest] u' Hu'. apply elem_of_cons in Hu' as [->|Hu']; [done|by apply Hrest].
    + intros Hall. split; [apply Hall, list_elem_of_here|].
      intros u' Hu'. by apply Hall, list_elem_of_further.
Qed.

Lemma notifications_onInitialize o params s :
  omap sentNotification (trace (step o (Initialize params) s)) =
  omap sentNotification
    (trace (exec o (forEach (workspaceUrisOf params) checkAstroVersion) s)).
Proof.
  unfold step, handle.
  destruct (exec_fmap o InitializeDone (onInitialize params) s) as (_ & -> & _).
  rewrite exec_onInitialize. cbn [trace]. rewrite omap_app.
  rewrite <- (app_nil_r (omap sentNotification (trace _))) at 2. f_equal.
  cbn [omap list_omap sentNotification].
  destruct (getProp (initializationOptions params) "environment") as [environment|err];
    [|done].
  by destruct (strictNeqString environment "browser").
Qed.

(** X5: the notifications of the initialize handler.  It sends at most
    one message per workspace URI, each a warning or an error, and it
    sends none exactly when every workspace has Astro installed in a
    version that is not at once of major 0, minor below 24 and patch
    below 5. *)
Theorem initialize_notifies_at_most_once_per_workspace o params s :
  let sent := omap sentNotification (trace (step o (Initialize params) s)) in
  length sent ≤ length (workspaceUrisOf params)
  ∧ Forall (λ m, messageType m = MessageWarning ∨ messageType m = MessageError) sent
  ∧ (sent = [] ↔
     ∀ u, u ∈ workspaceUrisOf params →
       exist (versionAt o u) = true
       ∧ ¬ ((major (versionAt o u) = 0)%Z
            ∧ (minor (versionAt o u) < 24)%Z
            ∧ (patch (versionAt o u) < 5)%Z)).
Proof.
  cbn zeta. rewrite notifications_onInitialize.
  apply notifications_forEach_checkAstroVersion.
Qed.

(** X6: the version comparison is by components.  When every workspace
    has an Astro version whose patch number is 5 or more, the
    initialize handler sends no message, whatever the major and minor
    numbers are: 0.22.7 is not reported as unsupported. *)
Theorem version_with_patch_5_is_not_reported o params s :
  (∀ u, u ∈ workspaceUrisOf params →
     exist (versionAt o u) = true ∧ (5 ≤ patch (versionAt o u))%Z) →
  omap sentNotification (trace (step o (Initialize params) s)) = [].
Proof.
  intros Hall. rewrite notifications_onInitialize.
  apply notifications_forEach_checkAstroVersion.
  intros u Hu. destruct (Hall u Hu) as [Hexist Hpatch]. split; [done|]. lia.
Qed.

(** *** Watched files and other files *)

Lemma List_filter_sublist {A : Type} (f : A → bool) (l : list A) :
  List.filter f l `sublist_of` l.
Proof.
  induction l as [|x l IH]; simpl; [done|].
  destruct (f x); by constructor.
Qed.

(** X7: a batch of watched-file changes.  The handler resolves every
    URI of the batch with [urlToPath], in order, and then calls
    [pluginHost.onWatchFileChanges] once and the debounced full
    recompute once.  The list it hands over has only entries with a
    non-empty file name, in the order of the batch, and has an entry
    for every change whose URI resolves to a non-empty path; the other
    changes are dropped. *)
Theorem watched_files_forwarded_when_resolved o evt s :
  ∃ params,
    trace (step o (DidChangeWatchedFiles evt) s) =
      ((λ c, urlToPath (fe_uri c)) <$> changes evt)
      ++ [pluginHost_onWatchFileChanges params; updateAllDiagnostics]
    ∧ Forall (λ c, ∃ path, fileName c = Some path ∧ path ≠ EmptyString) params
    ∧ params `sublist_of`
        ((λ c, {| fileName := o (urlToPath (fe_uri c)); changeType := fe_type c |})
           <$> changes evt)
    ∧ (∀ c path,
         c ∈ changes evt → o (urlToPath (fe_uri c)) = Some path → path ≠ EmptyString →
         {| fileName := Some path; changeType := fe_type c |} ∈ params).
Proof.
  rewrite step_DidChangeWatchedFiles. cbn [trace]. eexists. split; [done|].
  split; [|split].
  - apply Forall_forall. intros c Hc.
    apply list_elem_of_In, filter_In in Hc as [_ Hc].
    unfold hasFileName in Hc. destruct (fileName c) as [[|a path]|]; try done.
    by eexists.
  - apply List_filter_sublist.
  - intros c path Hc Hpath Hne. apply list_elem_of_In, filter_In. split.
    + apply list_elem_of_In, list_elem_of_fmap. exists c. by rewrite Hpath.
    + unfold hasFileName; simpl. by destruct path.
Qed.

(** X8: a change of a file that is not an Astro file.  The handler
    calls [pluginHost.updateNonAstroFile] exactly when [urlToPath]
    resolves the URI to a non-empty path, with that path and the
    changes of the notification; in either case its last call is the
    debounced full recompute. *)
Theorem non_astro_change_forwarded_when_resolved o (file : NonAstroFileChange) s :
  let t := trace (step o (DidChangeNonAstroFile file) s) in
  (∀ path edits,
     pluginHost_updateNonAstroFile path edits ∈ t ↔
     o (urlToPath (nonAstro_uri file)) = Some path
     ∧ path ≠ EmptyString ∧ edits = nonAstro_changes file)
  ∧ last t = Some updateAllDiagnostics.
Proof.
  unfold step, handle, onDidChangeNonAstroFile. unfold_monad. simpl.
  destruct (o (urlToPath (nonAstro_uri file))) as [[|a p]|]; simpl; (split; [|done]);
    intros path edits; split.
  - intros Hin. repeat (apply elem_of_cons in Hin as [Hin|Hin]; [done|]).
    by apply elem_of_nil in Hin.
  - by intros ([= <-] & ? & _).
  - intros Hin. apply elem_of_cons in Hin as [Hin|Hin]; [done|].
    apply elem_of_cons in Hin as [[= -> ->]|Hin]; [done|].
    apply elem_of_cons in Hin as [Hin|Hin]; [done|]. by apply elem_of_nil in Hin.
  - intros ([= <-] & _ & ->). apply list_elem_of_further, list_elem_of_here.
  - intros Hin. repeat (apply elem_of_cons in Hin as [Hin|Hin]; [done|]).
    by apply elem_of_nil in Hin.
  - by intros ([=] & _).
Qed.

(** *** Diagnostics *)

Lemma only_three_handlers_request_recompute e :
  (if e is DidChangeWatchedFiles _ then False
   else if e is DidSaveTextDocument _ _ then False
   else if e is DidChangeNonAstroFile _ then False else True) →
  everyCall (λ c, fullRecomputeTrigger c = None) (handle e).
Proof. destruct e as [| | | | | | | | |r tok| |]; try done; intros _; try destruct r; walk_all. Qed.

Lemma fullRecompute_step o e s :
  omap fullRecomputeTrigger (trace (step o e s)) =
  if requestsFullRecompute (Deliver o e) then [()] else [].
Proof.
  destruct e as [| | | | | |evt| |nonAstro| | |]; cbn [requestsFullRecompute];
    try (apply omap_unobserved, everyCall_trace;
         by apply only_three_handlers_request_recompute).
  - rewrite step_DidChangeWatchedFiles. cbn [trace]. rewrite omap_app.
    rewrite omap_unobserved; [done|]. apply Forall_fmap, Forall_true. done.
  - done.
  - unfold step, handle, onDidChangeNonAstroFile. unfold_monad. simpl.
    by destruct (o (urlToPath (nonAstro_uri nonAstro))) as [[|]|].
Qed.

(** X9: the debounced full recompute is called once by the callback of
    a batch of watched-file changes, of a document save and of a
    non-Astro file change, and by no other callback; over a run it is
    called as many times as there are such deliveries. *)
Theorem full_recompute_requested_once_per_delivery :
  (∀ o e s,
     omap fullRecomputeTrigger (trace (step o e s)) =
     if requestsFullRecompute (Deliver o e) then [()] else [])
  ∧ (∀ inputs s,
       length (omap fullRecomputeTrigger (serve inputs s))
       = length (List.filter requestsFullRecompute inputs)).
Proof.
  split; [apply fullRecompute_step|].
  intros inputs. induction inputs as [|[dt|o e] rest IH]; intros s; [done|apply IH|].
  cbn [serve List.filter]. rewrite omap_app, length_app, fullRecompute_step, IH.
  by destruct (requestsFullRecompute (Deliver o e)).
Qed.

Lemma no_direct_diagnostics e :
  everyCall (λ c, c ≠ diagnosticsManager_updateAll
                  ∧ ∀ document, c ≠ diagnosticsManager_update document) (handle e).
Proof.
  destruct e as [| | | | | | | | |r tok| |]; try destruct r; walk_all.
Qed.

(** X10: no callback computes diagnostics itself.  In any run, no call
    made by a callback is [diagnosticsManager.updateAll()] or
    [diagnosticsManager.update(document)]: recomputes are started by
    the debounced functions only. *)
Theorem diagnostics_recomputed_only_by_debounced_functions inputs s :
  Forall (λ c, c ≠ diagnosticsManager_updateAll
               ∧ ∀ document, c ≠ diagnosticsManager_update document)
    (serve inputs s).
Proof.
  revert s. induction inputs as [|[dt|o e] rest IH]; intros s; [constructor|apply IH|].
  cbn [serve]. apply Forall_app. split; [|apply IH].
  apply everyCall_trace, no_direct_diagnostics.
Qed.

(** *** The document manager *)

Lemma only_text_sync_changes_documents e :
  (if e is DidOpenTextDocument _ then False
   else if e is DidCloseTextDocument _ then False
   else if e is DidChangeTextDocument _ _ then False else True) →
  everyCall (λ c, documentStoreCall c = None) (handle e).
Proof. destruct e as [| | | | | | | | |r tok| |]; try done; intros _; try destruct r; walk_all. Qed.

(** X11: the document manager is changed by the handlers of the open,
    change and close notifications only.  Over a run, the calls of
    [openDocument], [markAsOpenedInClient], [updateDocument] and
    [closeDocument] are those of these notifications, in order: an open
    notification opens the document and marks the same URI as opened in
    the client; no feature request, file event or configuration change
    touches the documents. *)
Theorem documents_changed_by_text_sync_only inputs s :
  omap documentStoreCall (serve inputs s) = inputs ≫= textSyncCalls.
Proof.
  revert s. induction inputs as [|[dt|o e] rest IH]; intros s; [done|apply IH|].
  cbn [serve]. rewrite omap_app, IH. cbn [mbind list_bind]. f_equal.
  destruct e as [| | |item|td|td contentChanges| | | | | |]; try done;
    apply omap_unobserved, everyCall_trace; by apply only_text_sync_changes_documents.
Qed.

(** *** Requests *)


(** *** The initialize handler *)

(** X13: the capabilities the server advertises do not depend on the
    client.  Any two initialize messages whose initialization options
    are neither undefined nor null get the same result, whatever their
    workspace folders, client capabilities and environment: the
    capabilities of the object literal of lines 84 to 151, also in a
    browser, where the Astro and TypeScript plugins are not
    registered. *)
Theorem advertised_capabilities_do_not_depend_on_client o params1 params2 s1 s2 :
  nullish (initializationOptions params1) = false →
  nullish (initializationOptions params2) = false →
  result (step o (Initialize params1) s1) = result (step o (Initialize params2) s2)
  ∧ result (step o (Initialize params1) s1)
    = Returned (InitializeDone
                  {| server_capabilities := serverCapabilities (o getSemanticTokenLegend) |}).
Proof.
  assert (∀ params s, nullish (initializationOptions params) = false →
            result (step o (Initialize params) s)
            = Returned (InitializeDone
                          {| server_capabilities :=
                               serverCapabilities (o getSemanticTokenLegend) |})) as Hresult.
  { intros params s Hopt. unfold step, handle.
    destruct (exec_fmap o InitializeDone (onInitialize params) s) as (_ & _ & ->).
    rewrite exec_onInitialize. cbn [result].
    by destruct (initializationOptions params). }
  intros H1 H2. by rewrite !Hresult.
Qed.

(** X14: the plugin host is given its options before any plugin is
    registered.  In the calls of an initialize message, every
    [pluginHost.registerPlugin] comes after the call
    [pluginHost.initialize] with the options computed from the
    message. *)
Theorem pluginHost_initialized_before_plugins o params s before plugin after :
  trace (step o (Initialize params) s)
  = before ++ pluginHost_registerPlugin plugin :: after →
  pluginHost_initialize (pluginHostConfigOf params) ∈ before.
Proof.
  unfold step, handle.
  destruct (exec_fmap o InitializeDone (onInitialize params) s) as (_ & -> & _).
  rewrite exec_onInitialize. cbn [trace].
  set (checks := trace (exec o (forEach (workspaceUrisOf params) checkAstroVersion) s)).
  assert (Forall (λ c, registeredPlugin c = None) checks) as Hchecks.
  { apply everyCall_trace, everyCall_forEach. intros u.
    by apply everyCall_checkAstroVersion. }
  intros Heq. apply app_eq_inv in Heq as [(k & Hk1 & Hk2)|(k & Hk1 & Hk2)].
  - destruct k as [|c k]; [done|]. injection Hk2 as <- _.
    rewrite Hk1 in Hchecks. apply Forall_app in Hchecks as [_ Hc].
    by apply Forall_cons in Hc as [Hc _].
  - destruct k as [|c k]; [done|]. injection Hk2 as <- _.
    rewrite Hk1. apply elem_of_app. right. apply list_elem_of_here.
Qed.

(** *** The recomputes that the timers start *)












End Server.

(** * Concrete runs *)

Example interleavedEdits_firings :
  firingsOf sampleConfig sampleSortImportKind (uri pageA) interleavedEdits = [(1000, pageA')]
  ∧ firingsOf sampleConfig sampleSortImportKind (uri pageB) interleavedEdits = [(1300, pageB)].
Proof. split; vm_compute; reflexivity. Qed.

(** The calls of the same run with their times: the four calls of the
    debounced listener, and the two recomputes that its timers start. *)
Example interleavedEdits_timeline :
  timeline sampleConfig sampleSortImportKind quietOracle interleavedEdits
    started
  = [(0, debounced_documentChange pageA);
     (300, debounced_documentChange pageB);
     (600, debounced_documentChange pageA');
     (1000, diagnosticsManager_update pageA');
     (1100, debounced_documentChange pageB);
     (1300, diagnosticsManager_update pageB)].
Proof. vm_compute. reflexivity. Qed.

Example initialize_outside_browser :
  registrations
    (trace (step sampleConfig sampleSortImportKind quietOracle
              (Initialize (paramsIn "node")) initialState))
  = [HTMLPlugin; CSSPlugin; AstroPlugin ["file:///site"]; TypeScriptPlugin ["file:///site"]].
Proof. reflexivity. Qed.

Example initialize_in_browser :
  registrations
    (trace (step sampleConfig sampleSortImportKind quietOracle
              (Initialize (paramsIn "browser")) initialState))
  = [HTMLPlugin; CSSPlugin].
Proof. reflexivity. Qed.

Example initialize_without_options :
  result (step sampleConfig sampleSortImportKind quietOracle
            (Initialize paramsWithoutOptions) initialState)
  = Thrown (TypeError "Cannot read properties of undefined (reading 'environment')")
  ∧ trace (step sampleConfig sampleSortImportKind quietOracle
             (Initialize paramsWithoutOptions) initialState)
    = [urlToPath "file:///site"; getUserAstroVersion None;
       connection_sendNotification
         {| message :=
              "Couldn't find Astro in workspace " +:+ dquote +:+ "undefined" +:+ dquote
              +:+ ". Experience might be degraded. For the best experience, "
              +:+ "please make sure Astro is installed and then restart the "
              +:+ "language server";
            messageType := MessageWarning |};
       pluginHost_initialize
         {| filterIncompleteCompletions := true; definitionLinkSupport := false |};
       pluginHost_registerPlugin HTMLPlugin;
       pluginHost_registerPlugin CSSPlugin].
Proof. split; reflexivity. Qed.

(** When the timer of the debounced listener fires, the wrapped
    callback calls [diagnosticsManager.update(document)]; the callback
    of the other debounced function calls
    [diagnosticsManager.updateAll()]. *)
Example debounced_callbacks o document s :
  trace (exec o (documentChange_callback document) s) = [diagnosticsManager_update document]
  ∧ trace (exec o updateAllDiagnostics_callback s) = [diagnosticsManager_updateAll].
Proof. split; reflexivity. Qed.

Example configuration_change_with_open_documents :
  trace (step sampleConfig sampleSortImportKind
           (withOpened [(uri pageA, pageA); (uri pageB, pageB)] quietOracle)
           (DidChangeConfiguration {| settings := JsNull |})
           {| hasConfigurationCapability := true |})
  = [configManager_updateConfig; documentManager_getAllOpenedByClient;
     configManager_getConfig "astro" (uri pageA);
     configManager_getConfig "astro" (uri pageB)].
Proof. reflexivity. Qed.

Example configuration_change_pushed_null_settings :
  step sampleConfig sampleSortImportKind quietOracle
    (DidChangeConfiguration {| settings := JsNull |}) initialState
  = {| final := initialState; trace := [];
       result := Thrown (TypeError "Cannot read properties of null (reading 'astro')") |}.
Proof. reflexivity. Qed.


(** C2 as stated fails: a configuration change, in either delivery
    mode, does not call the debounced full recompute. *)
Lemma configuration_change_triggers_no_updateAll :
  (updateAllDiagnostics
     ∉ trace (step sampleConfig sampleSortImportKind (withOpened [(uri pageA, pageA)] quietOracle)
                (DidChangeConfiguration {| settings := JsNull |})
                {| hasConfigurationCapability := true |}))
  ∧ (updateAllDiagnostics
       ∉ trace (step sampleConfig sampleSortImportKind quietOracle
                  (DidChangeConfiguration
                     {| settings := JsObject [("astro", JsObject [("format", JsObject [])])] |})
                  {| hasConfigurationCapability := false |})).
Proof.
  split; intros Hin; cbn in Hin;
    repeat (apply elem_of_cons in Hin as [Hin|Hin]; [discriminate Hin|]);
    by apply elem_of_nil in Hin.
Qed.

(** C3 as stated fails: the hover handler queries the plugin host
    without the cancellation token of the request. *)
Lemma hover_forwards_no_token :
  ¬ ∃ c,
      c ∈ trace (step sampleConfig sampleSortImportKind quietOracle
                   (Incoming (HoverRequest (page (uri pageA)) origin) (Token 7))
                   initialState)
      ∧ forwardedToken c = Some (Token 7).
Proof.
  intros (c & Hin & Htoken). cbn in Hin.
  apply elem_of_cons in Hin as [->|Hin]; [discriminate Htoken|].
  by apply elem_of_nil in Hin.
Qed.

(** C3, amended, at a code action request and at a hover request. *)
Lemma cancellation_token_forwarded_witness :
  (isFeatureRequest (CodeActionRequest (page (uri pageA)) firstLine "quickfix") = true
   ∧ ∃ c,
       trace (step sampleConfig sampleSortImportKind quietOracle
                (Incoming (CodeActionRequest (page (uri pageA)) firstLine "quickfix") (Token 7))
                initialState) = [c]
       ∧ isFeatureQuery c = true
       ∧ forwardedToken c = Some (Token 7)).
Proof.
  split; [reflexivity|].
  apply (cancellation_token_forwarded_where_declared sampleConfig sampleSortImportKind
           quietOracle (CodeActionRequest (page (uri pageA)) firstLine "quickfix")
           (Token 7) initialState).
  reflexivity.
Defined.

(** C5 as stated fails.  Without the configuration capability, a
    change whose settings are null runs neither mode: the handler
    throws before any call.  And a change whose settings carry no
    'astro' value does not install what was pushed but
    [defaultLSConfig]. *)
Lemma configuration_change_runs_neither_mode :
  (let out :=
     step sampleConfig sampleSortImportKind quietOracle
       (DidChangeConfiguration {| settings := JsNull |}) initialState in
   (configManager_updateConfig ∉ trace out)
   ∧ (∀ config, configManager_updateGlobalConfig config ∉ trace out)
   ∧ result out = Thrown (TypeError "Cannot read properties of null (reading 'astro')"))
  ∧ (let pushed := JsObject [("editor", JsObject [("tabSize", JsNumber 2)])] in
     trace (step sampleConfig sampleSortImportKind quietOracle
              (DidChangeConfiguration {| settings := pushed |}) initialState)
     = [configManager_updateGlobalConfig sampleConfig]
     ∧ sampleConfig ≠ pushed).
Proof.
  split; [|split; [reflexivity|discriminate]].
  cbn. split; [apply not_elem_of_nil|]. split; [|reflexivity].
  intros config. apply not_elem_of_nil.
Qed.

(** C5, in dynamic mode with two open documents, and in the other mode
    with pushed 'astro' settings. *)
Lemma configuration_change_two_modes_witness :
  (hasConfigurationCapability {| hasConfigurationCapability := true |} = true
   ∧ step sampleConfig sampleSortImportKind
       (withOpened [(uri pageA, pageA); (uri pageB, pageB)] quietOracle)
       (DidChangeConfiguration {| settings := JsNull |})
       {| hasConfigurationCapability := true |}
     = {| final := {| hasConfigurationCapability := true |};
          trace :=
            [configManager_updateConfig; documentManager_getAllOpenedByClient;
             configManager_getConfig "astro" (uri pageA);
             configManager_getConfig "astro" (uri pageB)];
          result := Returned Done |})
  ∧ (hasConfigurationCapability initialState = false
     ∧ nullish (JsObject [("astro", JsObject [("format", JsBoolean true)])]) = false
     ∧ ∃ astro,
         getProp (JsObject [("astro", JsObject [("format", JsBoolean true)])]) "astro"
         = Returned astro
         ∧ step sampleConfig sampleSortImportKind quietOracle
             (DidChangeConfiguration
                {| settings := JsObject [("astro", JsObject [("format", JsBoolean true)])] |})
             initialState
           = {| final := initialState;
                trace :=
                  [configManager_updateGlobalConfig
                     (if truthy astro then astro else sampleConfig)];
                result := Returned Done |}).
Proof.
  split.
  - split; [reflexivity|].
    apply (proj1 (configuration_change_two_modes sampleConfig sampleSortImportKind
                    (withOpened [(uri pageA, pageA); (uri pageB, pageB)] quietOracle)
                    {| settings := JsNull |} {| hasConfigurationCapability := true |})).
    reflexivity.
  - split; [reflexivity|]. split; [reflexivity|].
    apply (proj2 (configuration_change_two_modes sampleConfig sampleSortImportKind
                    quietOracle
                    {| settings := JsObject [("astro", JsObject [("format", JsBoolean true)])] |}
                    initialState)); reflexivity.
Defined.

(** The fallback at settings without an 'astro' entry. *)
Lemma missing_astro_settings_witness :
  hasConfigurationCapability initialState = false
  ∧ getProp (JsObject [("editor", JsObject [("tabSize", JsNumber 2)])]) "astro"
    = Returned JsUndefined
  ∧ truthy JsUndefined = false
  ∧ trace (step sampleConfig sampleSortImportKind quietOracle
             (DidChangeConfiguration
                {| settings := JsObject [("editor", JsObject [("tabSize", JsNumber 2)])] |})
             initialState)
    = [configManager_updateGlobalConfig sampleConfig]
  ∧ result (step sampleConfig sampleSortImportKind quietOracle
              (DidChangeConfiguration
                 {| settings := JsObject [("editor", JsObject [("tabSize", JsNumber 2)])] |})
              initialState)
    = Returned Done.
Proof.
  split; [reflexivity|]. split; [reflexivity|]. split; [reflexivity|].
  apply (missing_astro_settings_fall_back_to_default sampleConfig sampleSortImportKind
           quietOracle
           {| settings := JsObject [("editor", JsObject [("tabSize", JsNumber 2)])] |}
           JsUndefined initialState); reflexivity.
Defined.

(** C9, at an item without data and at an item with data. *)
Lemma completion_resolve_witness :
  (truthy (data {| label := "div"; data := JsUndefined |}) = false
   ∧ trace (step sampleConfig sampleSortImportKind quietOracle
              (Incoming (CompletionResolveRequest {| label := "div"; data := JsUndefined |})
                 (Token 3)) initialState) = []
   ∧ result (step sampleConfig sampleSortImportKind quietOracle
               (Incoming (CompletionResolveRequest {| label := "div"; data := JsUndefined |})
                  (Token 3)) initialState)
     = Returned (Item {| label := "div"; data := JsUndefined |}))
  ∧ (truthy (data {| label := "Astro"; data := JsObject [("uri", JsString (uri pageA))] |})
     = true
     ∧ trace (step sampleConfig sampleSortImportKind quietOracle
                (Incoming
                   (CompletionResolveRequest
                      {| label := "Astro"; data := JsObject [("uri", JsString (uri pageA))] |})
                   (Token 3)) initialState)
       = [pluginHost_resolveCompletion (JsObject [("uri", JsString (uri pageA))])
            {| label := "Astro"; data := JsObject [("uri", JsString (uri pageA))] |}]).
Proof.
  split.
  - split; [reflexivity|].
    apply (proj1 (completion_resolve_routes_by_data sampleConfig sampleSortImportKind
                    quietOracle {| label := "div"; data := JsUndefined |} (Token 3)
                    initialState)).
    reflexivity.
  - split; [reflexivity|].
    apply (proj2 (completion_resolve_routes_by_data sampleConfig sampleSortImportKind
                    quietOracle
                    {| label := "Astro"; data := JsObject [("uri", JsString (uri pageA))] |}
                    (Token 3) initialState)).
    reflexivity.
Defined.

(** ** Further concrete runs *)

Example mixedBatch_forwards_the_file :
  trace (step sampleConfig sampleSortImportKind fileUrlOracle
           (DidChangeWatchedFiles mixedBatch) initialState)
  = [urlToPath "untitled:Untitled-1"; urlToPath "file:///site/src/pages/a.astro";
     pluginHost_onWatchFileChanges
       [{| fileName := Some "/site/src/pages/a.astro"; changeType := Changed |}];
     updateAllDiagnostics].
Proof. reflexivity. Qed.

Example empty_batch_still_requests_recompute :
  trace (step sampleConfig sampleSortImportKind quietOracle
           (DidChangeWatchedFiles {| changes := [] |}) initialState)
  = [pluginHost_onWatchFileChanges []; updateAllDiagnostics].
Proof. reflexivity. Qed.

Example configuration_change_before_initialize :
  trace (step sampleConfig sampleSortImportKind quietOracle
           (DidChangeConfiguration {| settings := JsObject [("astro", JsObject [])] |})
           (stateAfter sampleConfig sampleSortImportKind [] initialState))
  = [configManager_updateGlobalConfig (JsObject [])].
Proof. reflexivity. Qed.

(** X6, at a workspace with Astro 0.22.7. *)
Lemma version_with_patch_5_witness :
  (∀ u, u ∈ workspaceUrisOf (paramsIn "node") →
     exist (versionAt (withVersion astro_0_22_7 quietOracle) u) = true
     ∧ (5 ≤ patch (versionAt (withVersion astro_0_22_7 quietOracle) u))%Z)
  ∧ omap sentNotification
      (trace (step sampleConfig sampleSortImportKind
                (withVersion astro_0_22_7 quietOracle)
                (Initialize (paramsIn "node")) initialState))
    = [].
Proof.
  assert (∀ u, u ∈ workspaceUrisOf (paramsIn "node") →
            exist (versionAt (withVersion astro_0_22_7 quietOracle) u) = true
            ∧ (5 ≤ patch (versionAt (withVersion astro_0_22_7 quietOracle) u))%Z) as Hall.
  { intros u _. split; [reflexivity|]. simpl. lia. }
  split; [exact Hall|].
  exact (version_with_patch_5_is_not_reported sampleConfig sampleSortImportKind
           (withVersion astro_0_22_7 quietOracle) (paramsIn "node") initialState Hall).
Defined.


(** X13, at a client in a browser and a client outside it. *)
Lemma advertised_capabilities_witness :
  nullish (initializationOptions (paramsIn "browser")) = false
  ∧ nullish (initializationOptions (paramsIn "node")) = false
  ∧ result (step sampleConfig sampleSortImportKind quietOracle
              (Initialize (paramsIn "browser")) initialState)
    = result (step sampleConfig sampleSortImportKind quietOracle
                (Initialize (paramsIn "node")) {| hasConfigurationCapability := true |}).
Proof.
  split; [reflexivity|]. split; [reflexivity|].
  apply (advertised_capabilities_do_not_depend_on_client sampleConfig sampleSortImportKind
           quietOracle (paramsIn "browser") (paramsIn "node") initialState
           {| hasConfigurationCapability := true |}); reflexivity.
Defined.

(** X14, at the registration of the CSS plugin for a client in a
    browser. *)
Lemma pluginHost_initialized_before_plugins_witness :
  let t := trace (step sampleConfig sampleSortImportKind fileUrlOracle
                    (Initialize (paramsIn "browser")) initialState) in
  t = removelast (removelast t)
      ++ pluginHost_registerPlugin CSSPlugin :: [getSemanticTokenLegend]
  ∧ pluginHost_initialize (pluginHostConfigOf (paramsIn "browser"))
      ∈ removelast (removelast t).
Proof.
  intros t. split; [reflexivity|].
  apply (pluginHost_initialized_before_plugins sampleConfig sampleSortImportKind
           fileUrlOracle (paramsIn "browser") initialState
           (removelast (removelast t)) CSSPlugin [getSemanticTokenLegend]).
  reflexivity.
Defined.
